(** * go-ovn client: connection lifecycle, schema negotiation, monitor
      requests and transaction entry points

    A shallow embedding of [client.go] (package [goovn]).  The client
    object [ovndb] is threaded explicitly through every method; what a
    method does to the outside (the libovsdb RPC client, the logger, the
    ticker) is recorded as a list of events.  A nil-pointer dereference
    is an outcome of its own, distinct from a returned Go [error]. *)

From Stdlib Require Import ZArith Lia.
From stdpp Require Import base option list strings gmap sets.

Local Open Scope string_scope.
Local Open Scope list_scope.

(** ** Data model *)

(** Modelled from the spec: the two database names [DBNB] and [DBSB] are
    declared outside [client.go]; the comment above the switch in
    [NewClient] spells them out ("db string should strictly be
    OVN_Northbound or OVN_Southbound"). *)
Definition DBNB : string := "OVN_Northbound".
Definition DBSB : string := "OVN_Southbound".

(** [libovsdb.MonitorSelect] and [libovsdb.MonitorRequest]. *)
Record MonitorSelect : Type := mkSelect {
  Initial : bool;
  Insert : bool;
  Delete : bool;
  Modify : bool;
}.

Record MonitorRequest : Type := mkRequest {
  Columns : list string;
  Select : MonitorSelect;
}.

(** [libovsdb.TableSchema] and [libovsdb.DatabaseSchema]: only the key set
    of [Tables] is inspected by the client. *)
Record TableSchema : Type := mkTableSchema {
  SchemaColumns : list string;
}.

Record DatabaseSchema : Type := mkDatabaseSchema {
  Tables : gmap string TableSchema;
}.

(** The zero value that Go yields when [Schema[c.db]] has no entry: its
    [Tables] map is nil, so every lookup in it misses. *)
Definition zeroDatabaseSchema : DatabaseSchema := mkDatabaseSchema ∅.

(** [*libovsdb.OvsdbClient]: a live handle, with the schemas fetched when
    the transport was opened. *)
Record OvsdbClient : Type := mkOvsdbClient {
  handle : nat;
  Schema : gmap string DatabaseSchema;
}.

(** [libovsdb.Row], [libovsdb.TableUpdates] and the cache
    [map[string]map[string]libovsdb.Row]. *)
Abbreviation Row := (gmap string string).
Abbreviation TableUpdates := (gmap string (gmap string Row)).
Abbreviation Cache := (gmap string (gmap string Row)).

(** Go [error] values built or passed on by [client.go]. *)
Inductive error : Type :=
| ErrInvalidDb
| ErrColumnsNotSupported
| ErrTableNotSupported (table db : string)
| ErrLibovsdb (msg : string).

(** The three errors that [client.go] builds itself with [fmt.Errorf]
    are the configuration errors; [ErrLibovsdb] is whatever the RPC
    collaborator reports. *)
Definition configuration_error (e : error) : bool :=
  match e with
  | ErrLibovsdb _ => false
  | _ => true
  end.

(** [struct ovndb].  The two mutexes have no sequential content and are
    left out; callbacks and TLS material are opaque tokens. *)
Record ovndb : Type := mkOvndb {
  client : option OvsdbClient;
  cache : Cache;
  signalCB : option nat;
  disconnectCB : option nat;
  db : string;
  addr : string;
  tableCols : gmap string (list string);
  tlsConfig : option nat;
  reconn : bool;
}.

Definition set_client (v : option OvsdbClient) (c : ovndb) : ovndb :=
  mkOvndb v (cache c) (signalCB c) (disconnectCB c) (db c) (addr c)
          (tableCols c) (tlsConfig c) (reconn c).

Definition set_cache (v : Cache) (c : ovndb) : ovndb :=
  mkOvndb (client c) v (signalCB c) (disconnectCB c) (db c) (addr c)
          (tableCols c) (tlsConfig c) (reconn c).

Definition set_tableCols (v : gmap string (list string)) (c : ovndb) : ovndb :=
  mkOvndb (client c) (cache c) (signalCB c) (disconnectCB c) (db c) (addr c)
          v (tlsConfig c) (reconn c).

(** [struct Config], the fields that [NewClient] reads. *)
Record Config : Type := mkConfig {
  Db : string;
  Addr : string;
  TableCols : gmap string (list string);
  TLSConfig : option nat;
  Reconnect : bool;
  SignalCB : option nat;
  DisconnectCB : option nat;
}.

(** [libovsdb.Operation] and [*OvnCommand]: a command carries the row
    operations built for it. *)
Record Operation : Type := mkOperation {
  Op : string;
  Table : string;
}.

Record OvnCommand : Type := mkOvnCommand {
  Operations : list Operation;
}.

(** ** Observable effects *)

Inductive log_line : Type :=
| LogDisconnected (a : string)
| LogReconnectFailed (a : string) (err : error)
| LogSuppressed (a : string) (err : error)
| LogReconnected (a : string) (retry : Z).

Inductive event : Type :=
| EvConnect (a : string) (tls : option nat)
| EvDisconnect (h : OvsdbClient)
| EvMonitor (h : OvsdbClient) (database : string)
            (requests : gmap string MonitorRequest)
| EvRegister (h : OvsdbClient)
| EvTransact (h : OvsdbClient) (database : string) (ops : list Operation)
| EvNewTicker (milliseconds : Z)
| EvTick
| EvTickerStop
| EvLog (l : log_line).

(** A Go [range] over a map visits every entry once, in an order the
    language leaves open: any enumeration of the entries. *)
Record MapRange : Type := mkMapRange {
  visit : gmap string (list string) → list (string * list string);
  visit_perm : ∀ m, visit m ≡ₚ map_to_list m;
}.

Program Definition stdRange : MapRange := mkMapRange map_to_list _.
Next Obligation. done. Qed.

Program Definition revRange : MapRange :=
  mkMapRange (λ m, reverse (map_to_list m)) _.
Next Obligation. intros m. apply reverse_Permutation. Qed.

(** Everything one connect attempt depends on that the client does not
    control: the answers of the RPC collaborator (for a transaction, the
    identifier allocated by each operation, if any) and the order in
    which the runtime walks [c.tableCols] in the two [range] loops of
    [MonitorTables]. *)
Record World : Type := mkWorld {
  dial : string → option nat → error + OvsdbClient;
  monitor : OvsdbClient → string → gmap string MonitorRequest →
            error + TableUpdates;
  transact : OvsdbClient → string → list Operation →
             error + list (option string);
  rangeVerify : MapRange;
  rangeBuild : MapRange;
}.

(** Declarations of the package that live outside [client.go]: the two
    canonical table lists and the cache bulk load called by [connect]. *)
Class Package : Type := mkPackage {
  NBTablesOrder : list string;
  SBTablesOrder : list string;
  populateCache : TableUpdates → Cache → Cache;
}.

(** ** Outcomes and sequencing *)

Inductive outcome (A : Type) : Type :=
| Returned (r : A) (c : ovndb) (tr : list event)
| Panicked (tr : list event).
Arguments Returned {A} r c tr.
Arguments Panicked {A} tr.

Definition Go (A : Type) : Type := ovndb → outcome A.

Definition go_ret {A} (a : A) : Go A := λ c, Returned a c [].

Definition go_bind {A B} (m : Go A) (k : A → Go B) : Go B := λ c,
  match m c with
  | Returned a c1 tr1 =>
      match k a c1 with
      | Returned b c2 tr2 => Returned b c2 (tr1 ++ tr2)
      | Panicked tr2 => Panicked (tr1 ++ tr2)
      end
  | Panicked tr1 => Panicked tr1
  end.

Definition go_get : Go ovndb := λ c, Returned c c [].
Definition go_modify (f : ovndb → ovndb) : Go unit := λ c, Returned tt (f c) [].
Definition go_emit (e : event) : Go unit := λ c, Returned tt c [e].

#[export] Instance go_mret : MRet Go := @go_ret.
#[export] Instance go_mbind : MBind Go := λ A B k m, go_bind m k.

(** ** Schema negotiation and monitor requests *)

(** [GetSchema]: [c.client.Schema[c.db]]; dereferences the handle. *)
Definition GetSchema : Go DatabaseSchema := λ c,
  match client c with
  | Some ovs => Returned (default zeroDatabaseSchema (Schema ovs !! db c)) c []
  | None => Panicked []
  end.

(** The loop of [filterTablesFromSchema]: append every table of the
    canonical list that the schema knows. *)
Fixpoint schemaTablesLoop (dbSchema : DatabaseSchema) (tables acc : list string)
  : list string :=
  match tables with
  | [] => acc
  | table :: rest =>
      if decide (is_Some (Tables dbSchema !! table))
      then schemaTablesLoop dbSchema rest (acc ++ [table])
      else schemaTablesLoop dbSchema rest acc
  end.

Definition canonicalTables `{Package} (database : string) : list string :=
  if decide (database = DBNB) then NBTablesOrder else SBTablesOrder.

Definition filterTablesFromSchema `{Package} : Go (list string) :=
  c ← go_get;
  let tables := canonicalTables (db c) in
  dbSchema ← GetSchema;
  mret (schemaTablesLoop dbSchema tables []).

(** [supportedTableMaps[table] = true] for every computed table. *)
Fixpoint supportedLoop (tables : list string) (acc : gmap string bool)
  : gmap string bool :=
  match tables with
  | [] => acc
  | table :: rest => supportedLoop rest (<[table := true]> acc)
  end.

(** The verification loop over the caller's restriction, in the order
    the runtime visits it; the first offending entry ends it. *)
Fixpoint verifyLoop (supported : gmap string bool) (database : string)
    (entries : list (string * list string)) : option error :=
  match entries with
  | [] => None
  | (table, columns) :: rest =>
      if decide (is_Some (supported !! table)) then
        if decide (length columns ≠ 0)
        then Some ErrColumnsNotSupported
        else verifyLoop supported database rest
      else Some (ErrTableNotSupported table database)
  end.

(** [c.tableCols[table] = []string{}] for every computed table. *)
Fixpoint defaultColsLoop (tables : list string) (acc : gmap string (list string))
  : gmap string (list string) :=
  match tables with
  | [] => acc
  | table :: rest => defaultColsLoop rest (<[table := []]> acc)
  end.

Definition selectAll : MonitorSelect := mkSelect true true true true.

(** The loop that fills [requests] from [c.tableCols]. *)
Fixpoint requestsLoop (entries : list (string * list string))
    (acc : gmap string MonitorRequest) : gmap string MonitorRequest :=
  match entries with
  | [] => acc
  | (table, columns) :: rest =>
      requestsLoop rest (<[table := mkRequest columns selectAll]> acc)
  end.

(** Lines 419-429 of [MonitorTables]: the monitor request builder. *)
Definition buildRequests (r : MapRange) : Go (gmap string MonitorRequest) :=
  c ← go_get;
  mret (requestsLoop (visit r (tableCols c)) ∅).

(** [c.client.Monitor(c.db, jsonContext, requests)]. *)
Definition clientMonitor (w : World) (requests : gmap string MonitorRequest)
  : Go (error + TableUpdates) := λ c,
  match client c with
  | Some ovs =>
      Returned (monitor w ovs (db c) requests) c [EvMonitor ovs (db c) requests]
  | None => Panicked []
  end.

Definition MonitorTables `{Package} (w : World) : Go (error + TableUpdates) :=
  tables ← filterTablesFromSchema;
  c ← go_get;
  let subscribe :=
    requests ← buildRequests (rangeBuild w);
    clientMonitor w requests in
  if decide (size (tableCols c) ≠ 0) then
    let supportedTableMaps := supportedLoop tables ∅ in
    match verifyLoop supportedTableMaps (db c) (visit (rangeVerify w) (tableCols c)) with
    | Some err => mret (inl err)
    | None => subscribe
    end
  else
    go_modify (set_tableCols (defaultColsLoop tables ∅));;
    subscribe.

(** ** Connection manager *)

(** [c.client.Disconnect()]; dereferences the handle. *)
Definition clientDisconnect : Go unit := λ c,
  match client c with
  | Some ovs => Returned tt c [EvDisconnect ovs]
  | None => Panicked []
  end.

(** The function deferred by [connect]: it sees the named result [err]. *)
Definition connectDeferred (err : option error) : Go (option error) :=
  match err with
  | Some _ =>
      clientDisconnect;;
      go_modify (set_client None);;
      mret err
  | None => mret err
  end.

Definition connect `{Package} (w : World) : Go (option error) :=
  c ← go_get;
  go_emit (EvConnect (addr c) (tlsConfig c));;
  match dial w (addr c) (tlsConfig c) with
  | inl err => mret (Some err)
  | inr ovsdb =>
      go_modify (set_client (Some ovsdb));;
      r ← MonitorTables w;
      match r with
      | inl err => connectDeferred (Some err)
      | inr initial =>
          go_modify (λ c, set_cache (populateCache initial (cache c)) c);;
          go_emit (EvRegister ovsdb);;
          connectDeferred None
      end
  end.

(** What [NewClient] hands back: the pair [(Client, error)], or a fault. *)
Inductive created : Type :=
| Created (cl : option ovndb) (err : option error) (tr : list event)
| CreateFaulted (tr : list event).

(** The [switch db] of [NewClient]. *)
Definition resolveDb (name : string) : error + string :=
  if decide (name = DBNB ∨ name = DBSB) then inr name
  else if decide (name = "") then inr DBNB
  else inl ErrInvalidDb.

(** The [&ovndb{...}] literal of [NewClient]. *)
Definition initialOvndb (cfg : Config) (database : string) : ovndb :=
  mkOvndb None ∅ (SignalCB cfg) (DisconnectCB cfg) database
          (Addr cfg) (TableCols cfg) (TLSConfig cfg) (Reconnect cfg).

Definition NewClient `{Package} (w : World) (cfg : Config) : created :=
  match resolveDb (Db cfg) with
  | inl err => Created None (Some err) []
  | inr database =>
      let ovndb := initialOvndb cfg database in
      match connect w ovndb with
      | Returned (Some err) _ tr => Created None (Some err) tr
      | Returned None c tr => Created (Some c) None tr
      | Panicked tr => CreateFaulted tr
      end
  end.

(** [NewClient(cfg *Config)] as it is called: the first statement,
    [db := cfg.Db], dereferences the pointer, which may be nil; what
    follows is [NewClient] on the configuration it points to. *)
Definition NewClientPtr `{Package} (w : World) (cfg : option Config) : created :=
  match cfg with
  | None => CreateFaulted []
  | Some cfg => NewClient w cfg
  end.

(** Go [int] on a 64-bit platform: [retry++] wraps. *)
Definition wrapInt (z : Z) : Z := ((z + 2 ^ 63) mod 2 ^ 64 - 2 ^ 63)%Z.

(** Where the goroutine of [reconnect] stands once the ticks delivered so
    far are used up. *)
Inductive loop_state : Type :=
| Stopped
| Waiting (retry : Z).

(** The log statement of a failed attempt. *)
Definition logFailure (retry : Z) (err : error) : Go unit :=
  c ← go_get;
  if decide (retry < 10)%Z then go_emit (EvLog (LogReconnectFailed (addr c) err))
  else if decide (retry = 10)%Z then go_emit (EvLog (LogSuppressed (addr c) err))
  else mret tt.

(** [for range ticker.C]: one iteration per delivered tick; each tick
    meets its own [World]. *)
Fixpoint reconnectLoop `{Package} (ticks : list World) (retry : Z)
  : Go loop_state :=
  match ticks with
  | [] => mret (Waiting retry)
  | w :: rest =>
      go_emit EvTick;;
      r ← connect w;
      match r with
      | Some err =>
          logFailure retry err;;
          reconnectLoop rest (wrapInt (retry + 1))
      | None =>
          c ← go_get;
          go_emit (EvLog (LogReconnected (addr c) retry));;
          go_emit EvTickerStop;;
          mret Stopped
      end
  end.

Definition reconnect `{Package} (ticks : list World) : Go loop_state :=
  go_emit (EvNewTicker 500);;
  c ← go_get;
  go_emit (EvLog (LogDisconnected (addr c)));;
  reconnectLoop ticks 0.

Definition Close : Go (option error) :=
  clientDisconnect;;
  mret None.

(** ** Transaction executor *)

(** [c.client.Transact(c.db, ops...)]. *)
Definition clientTransact (w : World) (ops : list Operation)
  : Go (error + list (option string)) := λ c,
  match client c with
  | Some ovs => Returned (transact w ovs (db c) ops) c [EvTransact ovs (db c) ops]
  | None => Panicked []
  end.

(** Modelled from the spec: [execute] and [executeR], the unexported
    bodies behind [Execute] and [ExecuteR], are not in [client.go].  The
    spec has them accept zero or more pre-built row operations, succeed
    trivially with no transaction sent when there are none, and otherwise
    submit all of them as one request whose result is a single error or,
    for the UUID-returning variant, the identifiers of the operations
    that allocate a row, in submission order. *)
Definition execute (w : World) (cmds : list OvnCommand) : Go (option error) :=
  match concat (Operations <$> cmds) with
  | [] => mret None
  | ops =>
      r ← clientTransact w ops;
      mret (match r with inl err => Some err | inr _ => None end)
  end.

Definition executeR (w : World) (cmds : list OvnCommand)
  : Go (list string * option error) :=
  match concat (Operations <$> cmds) with
  | [] => mret ([], None)
  | ops =>
      r ← clientTransact w ops;
      mret (match r with
            | inl err => ([], Some err)
            | inr results => (omap id results, None)
            end)
  end.

Definition Execute (w : World) (cmds : list OvnCommand) : Go (option error) :=
  execute w cmds.

Definition ExecuteR (w : World) (cmds : list OvnCommand)
  : Go (list string * option error) :=
  executeR w cmds.

(** ** Concrete scenarios *)

Module Scenario.

Definition pkg : Package :=
  mkPackage ["A"; "B"; "C"] ["X"] (λ initial _, initial).

Definition anyTable : TableSchema := mkTableSchema ["name"].

(** The remote schema knows A and B of the northbound database. *)
Definition ovs1 : OvsdbClient :=
  mkOvsdbClient 1
    {[ DBNB := mkDatabaseSchema {[ "A" := anyTable; "B" := anyTable ]} ]}.

Definition refused : error := ErrLibovsdb "connection refused".
Definition rejected : error := ErrLibovsdb "monitor rejected".

Definition up : World :=
  mkWorld (λ _ _, inr ovs1) (λ _ _ _, inr ∅)
          (λ _ _ ops, inr ((λ _, None) <$> ops)) stdRange stdRange.

Definition upRev : World :=
  mkWorld (λ _ _, inr ovs1) (λ _ _ _, inr ∅)
          (λ _ _ ops, inr ((λ _, None) <$> ops)) revRange revRange.

Definition down : World :=
  mkWorld (λ _ _, inl refused) (λ _ _ _, inr ∅)
          (λ _ _ _, inl refused) stdRange stdRange.

Definition deaf : World :=
  mkWorld (λ _ _, inr ovs1) (λ _ _ _, inl rejected)
          (λ _ _ _, inl refused) stdRange stdRange.

Definition cfg (name : string) (cols : gmap string (list string)) : Config :=
  mkConfig name "tcp:127.0.0.1:6641" cols None true None None.

Definition fresh (cols : gmap string (list string)) : ovndb :=
  mkOvndb (Some ovs1) ∅ None None DBNB "tcp:127.0.0.1:6641" cols None true.

End Scenario.

(** ** Reading a trace *)

Definition logLines (tr : list event) : list log_line :=
  omap (λ e, match e with EvLog l => Some l | _ => None end) tr.

Definition connectAttempts (tr : list event) : nat :=
  length (omap (λ e, match e with EvConnect a _ => Some a | _ => None end) tr).

Definition ticksConsumed (tr : list event) : nat :=
  length (omap (λ e, match e with EvTick => Some () | _ => None end) tr).

(** The request built for one table. *)
Definition requestFor (columns : list string) : MonitorRequest :=
  mkRequest columns (mkSelect true true true true).

(** [allFail ticks c errs c']: the attempts met by [ticks], made one
    after the other from [c], all fail, with the errors [errs], and leave
    the client as [c']. *)
Fixpoint allFail `{Package} (ticks : list World) (c : ovndb)
    (errs : list error) (c' : ovndb) : Prop :=
  match ticks, errs with
  | [], [] => c' = c
  | w :: rest, err :: errs' =>
      ∃ c1 tr, connect w c = Returned (Some err) c1 tr ∧ allFail rest c1 errs' c'
  | _, _ => False
  end.

(** The schema [GetSchema] reads from a handle, and the tables of the
    canonical list that it knows, in canonical order. *)
Definition schemaOf (ovs : OvsdbClient) (database : string) : DatabaseSchema :=
  default zeroDatabaseSchema (Schema ovs !! database).

Definition computedTables `{Package} (ovs : OvsdbClient) (database : string)
  : list string :=
  filter (λ table, is_Some (Tables (schemaOf ovs database) !! table))
         (canonicalTables database).

(** [c.tableCols] after the defaulting branch of [MonitorTables]. *)
Definition defaultCols `{Package} (ovs : OvsdbClient) (database : string)
  : gmap string (list string) :=
  defaultColsLoop (computedTables ovs database) ∅.

(** A restriction that names only computed tables, each with an empty
    column list. *)
Definition namesComputedTables (tables : list string)
    (cols : gmap string (list string)) : Prop :=
  ∀ table columns, cols !! table = Some columns →
    table ∈ tables ∧ columns = [].

(** [MonitorTables] gets as far as the subscription, and the tables it
    subscribes to are the keys of the map the caller passed in. *)
Definition monitorsNamedTables `{Package} (w : World) (c : ovndb) : Prop :=
  ∃ r c' ovs requests,
    MonitorTables w c = Returned r c' [EvMonitor ovs (db c) requests] ∧
    dom requests = dom (tableCols c).

(** [NewClient] turns the configuration down before it dials. *)
Definition rejectsIdentity `{Package} (w : World) (cfg : Config) : Prop :=
  NewClient w cfg = Created None (Some ErrInvalidDb) [].

(** What a failed attempt writes to the log when [retry] failures came
    before it, and what a run of failures writes from failure number [k]
    on: ten plain lines, one line announcing the suppression, then
    nothing. *)
Definition failureLines (a : string) (retry : Z) (err : error) : list log_line :=
  if decide (retry < 10)%Z then [LogReconnectFailed a err]
  else if decide (retry = 10)%Z then [LogSuppressed a err]
  else [].

Definition cappedLog (a : string) (k : nat) (errs : list error) : list log_line :=
  (LogReconnectFailed a <$> take (10 - k) errs) ++
  (LogSuppressed a <$> take (11 - k - (10 - k)) (drop (10 - k) errs)).

(** [MonitorTables] subscribes and hands the client back as it got it. *)
Definition subscribesWithoutWriting `{Package} (w : World) (c : ovndb) : Prop :=
  ∃ r h requests, MonitorTables w c = Returned r c [EvMonitor h (db c) requests].

(** Whatever a first [MonitorTables] subscribed with, a second one, run on
    the client the first one left and a new handle, subscribes with
    again. *)
Definition resubscribesIdentically `{Package} (w1 w2 : World) (c : ovndb)
    (h2 : OvsdbClient) : Prop :=
  ∀ r1 c1 h1 requests,
    MonitorTables w1 c = Returned r1 c1 [EvMonitor h1 (db c) requests] →
    ∃ r2 c3,
      MonitorTables w2 (set_client (Some h2) c1) =
        Returned r2 c3 [EvMonitor h2 (db c) requests].

(** The fields of the client that are fixed by [NewClient]. *)
Definition sameSettings (c c' : ovndb) : Prop :=
  db c' = db c ∧ addr c' = addr c ∧ signalCB c' = signalCB c ∧
  disconnectCB c' = disconnectCB c ∧ tlsConfig c' = tlsConfig c ∧
  reconn c' = reconn c.

(** Remote ends whose schema differs from the one of [Scenario.ovs1]. *)
Module Drift.

(** The northbound schema has lost table B. *)
Definition ovs2 : OvsdbClient :=
  mkOvsdbClient 2
    {[ DBNB := mkDatabaseSchema {[ "A" := Scenario.anyTable ]} ]}.

(** The handle carries no schema for the northbound database. *)
Definition ovs0 : OvsdbClient := mkOvsdbClient 3 ∅.

Definition shrunk : World :=
  mkWorld (λ _ _, inr ovs2) (λ _ _ _, inr ∅)
          (λ _ _ _, inl Scenario.refused) revRange stdRange.

Definition blank : World :=
  mkWorld (λ _ _, inr ovs0) (λ _ _ _, inr ∅)
          (λ _ _ _, inl Scenario.refused) stdRange stdRange.

(** The northbound schema has gained table C. *)
Definition ovs3 : OvsdbClient :=
  mkOvsdbClient 4
    {[ DBNB := mkDatabaseSchema {[ "A" := Scenario.anyTable;
                                   "B" := Scenario.anyTable;
                                   "C" := Scenario.anyTable ]} ]}.

Definition grown : World :=
  mkWorld (λ _ _, inr ovs3) (λ _ _ _, inr ∅)
          (λ _ _ _, inl Scenario.refused) revRange revRange.

End Drift.

(** ** The loops of [MonitorTables] *)

Lemma schemaTablesLoop_filter dbSchema tables acc :
  schemaTablesLoop dbSchema tables acc =
  (acc ++ filter (λ table, is_Some (Tables dbSchema !! table)) tables)%list.
Proof.
  revert acc. induction tables as [|table rest IH]; intros acc; simpl.
  - by rewrite app_nil_r.
  - rewrite filter_cons. case_decide.
    + rewrite IH. by rewrite <- app_assoc.
    + apply IH.
Qed.

Lemma supportedLoop_lookup tables acc table :
  is_Some (supportedLoop tables acc !! table) ↔
  table ∈ tables ∨ is_Some (acc !! table).
Proof.
  revert acc. induction tables as [|t rest IH]; intros acc; simpl.
  - split; [by right | intros [Hin | ?]; [by apply elem_of_nil in Hin | done]].
  - rewrite IH, elem_of_cons. destruct (decide (t = table)) as [->|Hne].
    + rewrite lookup_insert_eq. split; [intros _; by left; left | intros _; by right].
    + rewrite lookup_insert_ne by done. split.
      * intros [?|?]; [left; by right | by right].
      * intros [[?|?]|?]; [congruence | by left | by right].
Qed.

Lemma defaultColsLoop_lookup tables acc table :
  defaultColsLoop tables acc !! table =
  if decide (table ∈ tables) then Some [] else acc !! table.
Proof.
  revert acc. induction tables as [|t rest IH]; intros acc; simpl.
  - destruct (decide (table ∈ [])) as [Hin|_]; [by apply elem_of_nil in Hin | done].
  - rewrite IH. destruct (decide (table ∈ rest)) as [Hin|Hout].
    + rewrite decide_True; [done | by right].
    + destruct (decide (t = table)) as [->|Hne].
      * rewrite lookup_insert_eq. rewrite decide_True; [done | by left].
      * rewrite lookup_insert_ne by done. rewrite decide_False; [done|].
        intros [?|?]%elem_of_cons; congruence.
Qed.

Lemma verifyLoop_configuration supported database entries err :
  verifyLoop supported database entries = Some err →
  configuration_error err = true.
Proof.
  induction entries as [|[table columns] rest IH]; simpl; [done|].
  repeat case_decide; naive_solver.
Qed.

Lemma verifyLoop_None supported database entries :
  verifyLoop supported database entries = None ↔
  ∀ table columns, (table, columns) ∈ entries →
    is_Some (supported !! table) ∧ columns = [].
Proof.
  induction entries as [|[table columns] rest IH]; simpl.
  - split; [|done]. intros _ ?? Hin. by apply elem_of_nil in Hin.
  - repeat case_decide.
    + split; [done|]. intros Hall.
      destruct (Hall table columns) as [_ ->]; [left|]. done.
    + rewrite IH. split.
      * intros Hall t cols [Heq | Hin]%elem_of_cons; [|by apply Hall].
        injection Heq as -> ->. split; [done|].
        destruct columns; [done | simpl in *; lia].
      * intros Hall t cols Hin. apply Hall. by right.
    + split; [done|]. intros Hall.
      destruct (Hall table columns) as [? _]; [left|]; done.
Qed.

Lemma requestsLoop_lookup entries acc table :
  NoDup entries.*1 →
  requestsLoop entries acc !! table =
  match (list_to_map entries : gmap string (list string)) !! table with
  | Some columns => Some (requestFor columns)
  | None => acc !! table
  end.
Proof.
  revert acc. induction entries as [|[t columns] rest IH]; intros acc Hnd; simpl.
  - by rewrite lookup_empty.
  - apply NoDup_cons in Hnd as [Hnotin Hnd]. rewrite IH by done.
    destruct (decide (t = table)) as [->|Hne].
    + rewrite lookup_insert_eq.
      rewrite (not_elem_of_list_to_map_1 rest table) by done.
      by rewrite lookup_insert_eq.
    + rewrite !lookup_insert_ne by done. done.
Qed.

Lemma requestsLoop_range (r : MapRange) (m : gmap string (list string)) :
  requestsLoop (visit r m) ∅ = requestFor <$> m.
Proof.
  pose proof (visit_perm r m) as Hperm.
  apply map_eq. intros table. rewrite requestsLoop_lookup.
  - rewrite (list_to_map_proper (visit r m) (map_to_list m)).
    + rewrite list_to_map_to_list, lookup_fmap, lookup_empty.
      by destruct (m !! table).
    + rewrite Hperm. apply NoDup_fst_map_to_list.
    + done.
  - rewrite Hperm. apply NoDup_fst_map_to_list.
Qed.

(** ** Running [MonitorTables] *)

Lemma filterTablesFromSchema_run `{Package} c ovs :
  client c = Some ovs →
  filterTablesFromSchema c = Returned (computedTables ovs (db c)) c [].
Proof.
  intros Hc. cbv [filterTablesFromSchema mbind go_mbind go_bind go_get GetSchema mret go_mret go_ret].
  rewrite Hc. simpl. by rewrite schemaTablesLoop_filter.
Qed.

Lemma filterTablesFromSchema_inv `{Package} c tables c' tr :
  filterTablesFromSchema c = Returned tables c' tr →
  ∃ ovs, client c = Some ovs ∧ tables = computedTables ovs (db c) ∧
         c' = c ∧ tr = [].
Proof.
  destruct (client c) as [ovs|] eqn:Hc.
  - rewrite (filterTablesFromSchema_run c ovs Hc). intros [= <- <- <-]. eauto.
  - cbv [filterTablesFromSchema mbind go_mbind go_bind go_get GetSchema].
    by rewrite Hc.
Qed.

Lemma buildRequests_run r c :
  buildRequests r c = Returned (requestFor <$> tableCols c) c [].
Proof.
  cbv [buildRequests mbind go_mbind go_bind go_get mret go_mret go_ret].
  simpl. by rewrite requestsLoop_range.
Qed.

Lemma MonitorTables_restricted `{Package} w c ovs :
  client c = Some ovs → size (tableCols c) ≠ 0 →
  MonitorTables w c =
  match verifyLoop (supportedLoop (computedTables ovs (db c)) ∅) (db c)
                   (visit (rangeVerify w) (tableCols c)) with
  | Some err => Returned (inl err) c []
  | None =>
      Returned (monitor w ovs (db c) (requestFor <$> tableCols c)) c
               [EvMonitor ovs (db c) (requestFor <$> tableCols c)]
  end.
Proof.
  intros Hc Hsize. unfold MonitorTables, mbind, go_mbind, go_bind at 1.
  rewrite (filterTablesFromSchema_run c ovs Hc).
  unfold go_bind at 1. unfold go_get at 1.
  rewrite decide_True by done.
  destruct (verifyLoop _ _ _); [done|].
  unfold go_bind. rewrite buildRequests_run. unfold clientMonitor.
  by rewrite Hc.
Qed.

Lemma MonitorTables_default `{Package} w c ovs :
  client c = Some ovs → size (tableCols c) = 0 →
  MonitorTables w c =
  Returned (monitor w ovs (db c) (requestFor <$> defaultCols ovs (db c)))
           (set_tableCols (defaultCols ovs (db c)) c)
           [EvMonitor ovs (db c) (requestFor <$> defaultCols ovs (db c))].
Proof.
  intros Hc Hsize. unfold MonitorTables, mbind, go_mbind, go_bind at 1.
  rewrite (filterTablesFromSchema_run c ovs Hc).
  unfold go_bind at 1. unfold go_get at 1.
  rewrite decide_False by lia.
  unfold go_bind, go_modify. rewrite buildRequests_run. unfold clientMonitor.
  simpl. by rewrite Hc.
Qed.

Lemma MonitorTables_nil_client `{Package} w c :
  client c = None → MonitorTables w c = Panicked [].
Proof.
  intros Hc.
  cbv [MonitorTables filterTablesFromSchema mbind go_mbind go_bind go_get GetSchema].
  by rewrite Hc.
Qed.

Lemma MonitorTables_subscribed `{Package} w c r c1 h d requests :
  MonitorTables w c = Returned r c1 [EvMonitor h d requests] →
  client c = Some h ∧ d = db c ∧ r = monitor w h d requests ∧
  requests = requestFor <$> tableCols c1 ∧
  ((size (tableCols c) ≠ 0 ∧ c1 = c ∧
    verifyLoop (supportedLoop (computedTables h (db c)) ∅) (db c)
               (visit (rangeVerify w) (tableCols c)) = None) ∨
   (size (tableCols c) = 0 ∧ c1 = set_tableCols (defaultCols h (db c)) c)).
Proof.
  destruct (client c) as [ovs|] eqn:Hc;
    [|by rewrite MonitorTables_nil_client].
  destruct (decide (size (tableCols c) = 0)) as [Hsize|Hsize].
  - rewrite (MonitorTables_default w c ovs Hc Hsize).
    intros Heq. injection Heq as <- <- <- <- <-. simpl. repeat split; auto.
  - rewrite (MonitorTables_restricted w c ovs Hc Hsize).
    destruct (verifyLoop _ _ _) eqn:Hverify; [done|].
    intros Heq. injection Heq as <- <- <- <- <-. repeat split; auto.
Qed.

Lemma set_tableCols_same c : set_tableCols (tableCols c) c = c.
Proof. by destruct c. Qed.

Lemma defaultCols_lookup `{Package} ovs database table columns :
  defaultCols ovs database !! table = Some columns ↔
  table ∈ computedTables ovs database ∧ columns = [].
Proof.
  unfold defaultCols. rewrite defaultColsLoop_lookup, lookup_empty.
  case_decide as Hin; split.
  - by intros [= <-].
  - by intros [_ ->].
  - done.
  - by intros [? _].
Qed.

Lemma verifyLoop_range (r : MapRange) tables database
    (cols : gmap string (list string)) :
  verifyLoop (supportedLoop tables ∅) database (visit r cols) = None ↔
  namesComputedTables tables cols.
Proof.
  rewrite verifyLoop_None. unfold namesComputedTables.
  split; intros Hall table columns Hin.
  - destruct (Hall table columns) as [Hsup ->].
    + rewrite (visit_perm r cols). by apply elem_of_map_to_list.
    + apply supportedLoop_lookup in Hsup as [?|Hsup]; [done|].
      rewrite lookup_empty in Hsup. by destruct Hsup.
  - rewrite (visit_perm r cols) in Hin. apply elem_of_map_to_list in Hin.
    destruct (Hall table columns Hin) as [? ->]. split; [|done].
    apply supportedLoop_lookup. by left.
Qed.

(** ** Schema negotiation *)

(** C1, as amended.  When the caller's restriction map is not empty,
    names only tables of the computed subset and gives each an empty
    column list, [MonitorTables] raises no configuration error and
    subscribes; the monitored tables are exactly the tables the map
    names.  The computed subset is the canonical list of the database
    with the tables the fetched schema lacks dropped, the others in
    canonical order; read off the canonical list, the monitored tables
    are the named ones. *)
Theorem restricted_negotiation `{Package} (w : World) (c : ovndb)
    (tables : list string) :
  filterTablesFromSchema c = Returned tables c [] →
  size (tableCols c) ≠ 0 →
  namesComputedTables tables (tableCols c) →
  tables `sublist_of` canonicalTables (db c) ∧
  ∃ ovs requests,
    client c = Some ovs ∧
    (∀ table, table ∈ tables ↔
       table ∈ canonicalTables (db c) ∧
       is_Some (Tables (schemaOf ovs (db c)) !! table)) ∧
    MonitorTables w c =
      Returned (monitor w ovs (db c) requests) c
               [EvMonitor ovs (db c) requests] ∧
    dom requests = dom (tableCols c) ∧
    (∀ table, table ∈ dom requests ↔
       table ∈ filter (λ t, t ∈ dom (tableCols c)) (canonicalTables (db c))).
Proof.
  intros Hfilter Hsize Hnames.
  apply filterTablesFromSchema_inv in Hfilter as (ovs & Hc & -> & _ & _).
  split; [apply sublist_filter|].
  exists ovs, (requestFor <$> tableCols c). split; [done|]. split.
  { intros table. unfold computedTables. rewrite list_elem_of_filter. tauto. }
  split.
  { rewrite (MonitorTables_restricted w c ovs Hc Hsize).
    by rewrite (proj2 (verifyLoop_range _ _ _ _) Hnames). }
  split; [apply dom_fmap_L|].
  intros table. rewrite dom_fmap_L, list_elem_of_filter. split; [|tauto].
  intros Hin. split; [done|].
  apply elem_of_dom in Hin as [columns Hlook].
  destruct (Hnames table columns Hlook) as [Hcomputed _].
  unfold computedTables in Hcomputed.
  apply list_elem_of_filter in Hcomputed. tauto.
Qed.

(** C2.  Whenever some table of the restriction map has a non-empty
    column list, [MonitorTables] returns a configuration error, whatever
    tables the map names and in whatever order the map is walked; the
    client is left as it was and no subscription is sent. *)
Theorem column_restriction_rejected `{Package} (w : World) (c : ovndb)
    (ovs : OvsdbClient) (table : string) (columns : list string) :
  client c = Some ovs →
  tableCols c !! table = Some columns →
  columns ≠ [] →
  ∃ err, MonitorTables w c = Returned (inl err) c [] ∧
         configuration_error err = true.
Proof.
  intros Hc Hlook Hcols.
  assert (size (tableCols c) ≠ 0) as Hsize
    by (apply (map_size_ne_0_lookup_2 _ table); eauto).
  rewrite (MonitorTables_restricted w c ovs Hc Hsize).
  destruct (verifyLoop _ _ _) as [err|] eqn:Hverify.
  - exists err. split; [done|]. by eapply verifyLoop_configuration.
  - apply verifyLoop_range in Hverify.
    by destruct (Hverify table columns Hlook) as [_ ?].
Qed.

(** ** Monitor request builder *)

(** C3, as amended.  Filling the request set from [c.tableCols] has no
    side effect and does not depend on the iteration order: under every
    order the builder returns the same requests, hands the client back
    as it got it and produces no event.  [MonitorTables] as a whole
    writes the client in one case only: when [c.tableCols] is empty it
    stores the defaulted selection there; otherwise it leaves the client
    alone.  On a client that still has the selection left by a first
    [MonitorTables], a later [MonitorTables] subscribes with exactly the
    first request set when the new handle carries the same schema for
    the database; when the selection is not empty it does so for any
    schema, unless it returns a configuration error and sends nothing. *)
Theorem request_builder_pure `{Package} (w1 w2 : World) (c c1 c2 : ovndb)
    (r1 : error + TableUpdates) (h1 h2 : OvsdbClient) (d1 : string)
    (requests : gmap string MonitorRequest) :
  MonitorTables w1 c = Returned r1 c1 [EvMonitor h1 d1 requests] →
  client c2 = Some h2 →
  db c2 = db c1 →
  tableCols c2 = tableCols c1 →
  (∀ r : MapRange, buildRequests r c1 = Returned requests c1 []) ∧
  (∀ r : MapRange, buildRequests r c2 = Returned requests c2 []) ∧
  (c1 = c ∨
   size (tableCols c) = 0 ∧ c1 = set_tableCols (defaultCols h1 (db c)) c) ∧
  (Schema h2 !! db c2 = Schema h1 !! db c1 →
   MonitorTables w2 c2 =
     Returned (monitor w2 h2 (db c2) requests) c2
              [EvMonitor h2 (db c2) requests]) ∧
  (size (tableCols c1) ≠ 0 →
   MonitorTables w2 c2 =
     Returned (monitor w2 h2 (db c2) requests) c2
              [EvMonitor h2 (db c2) requests] ∨
   ∃ err, MonitorTables w2 c2 = Returned (inl err) c2 [] ∧
          configuration_error err = true).
Proof.
  intros Hfirst Hc2 Hdb Hcols.
  apply MonitorTables_subscribed in Hfirst as (Hc & -> & -> & -> & Hcase).
  split; [intros r; apply buildRequests_run|].
  split; [intros r; rewrite buildRequests_run; by rewrite Hcols|].
  split.
  { destruct Hcase as [(_ & -> & _)|(Hzero & ->)]; [by left | by right]. }
  split.
  - intros Hschema.
    assert (db c1 = db c) as Hdb1 by (destruct Hcase as [(_ & -> & _)|(_ & ->)]; done).
    assert (computedTables h2 (db c2) = computedTables h1 (db c)) as Htables.
    { unfold computedTables, schemaOf. by rewrite Hschema, Hdb, Hdb1. }
    assert (namesComputedTables (computedTables h1 (db c)) (tableCols c1)) as Hnames.
    { destruct Hcase as [(_ & -> & Hverify)|(_ & ->)].
      - by apply verifyLoop_range in Hverify.
      - intros table columns Hlook. by apply defaultCols_lookup in Hlook. }
    destruct (decide (size (tableCols c2) = 0)) as [Hsize|Hsize].
    + rewrite (MonitorTables_default w2 c2 h2 Hc2 Hsize).
      assert (defaultCols h2 (db c2) = tableCols c2) as ->.
      { apply map_size_empty_iff in Hsize. rewrite Hsize.
        apply map_eq. intros table. rewrite lookup_empty.
        destruct (defaultCols h2 (db c2) !! table) as [columns|] eqn:Hlook; [|done].
        apply defaultCols_lookup in Hlook as [Hin _]. rewrite Htables in Hin.
        destruct Hcase as [(Hne & -> & _)|(_ & ->)].
        - rewrite <- Hcols, Hsize in Hne. by rewrite map_size_empty in Hne.
        - simpl in Hcols. rewrite Hsize in Hcols.
          assert (defaultCols h1 (db c) !! table = Some []) as Hdef
            by by apply defaultCols_lookup.
          by rewrite <- Hcols, lookup_empty in Hdef. }
      by rewrite set_tableCols_same, Hcols.
    + rewrite (MonitorTables_restricted w2 c2 h2 Hc2 Hsize).
      rewrite Htables, Hcols.
      by rewrite (proj2 (verifyLoop_range _ _ _ _) Hnames).
  - intros Hsize. rewrite <- Hcols in Hsize.
    rewrite (MonitorTables_restricted w2 c2 h2 Hc2 Hsize).
    destruct (verifyLoop (supportedLoop (computedTables h2 (db c2)) ∅) (db c2)
                (visit (rangeVerify w2) (tableCols c2))) as [err|] eqn:Hverify.
    + right. exists err. split; [done|]. by eapply verifyLoop_configuration.
    + left. by rewrite Hcols.
Qed.

(** X15.  Once the selection is not empty it is never recomputed: whatever the
    schema of the new handle, a later [MonitorTables] that gets as far as
    the subscription sends the request set of the first one. *)
Lemma resubscription_identical `{Package} (w1 w2 : World) (c c1 c2 c3 : ovndb)
    (r1 r2 : error + TableUpdates) (h1 h2 : OvsdbClient) (d1 d2 : string)
    (requests1 requests2 : gmap string MonitorRequest) :
  MonitorTables w1 c = Returned r1 c1 [EvMonitor h1 d1 requests1] →
  tableCols c2 = tableCols c1 →
  size (tableCols c1) ≠ 0 →
  MonitorTables w2 c2 = Returned r2 c3 [EvMonitor h2 d2 requests2] →
  requests2 = requests1 ∧ c3 = c2.
Proof.
  intros Hfirst Hcols Hsize Hsecond.
  apply MonitorTables_subscribed in Hfirst as (_ & _ & _ & -> & _).
  apply MonitorTables_subscribed in Hsecond as (_ & _ & _ & -> & Hcase).
  destruct Hcase as [(_ & -> & _)|(Hzero & _)].
  - by rewrite Hcols.
  - by rewrite Hcols in Hzero.
Qed.

(** C4.  On a client with a live handle whose restriction, if any, names
    only computed tables with empty column lists, [MonitorTables] builds
    and sends one request set: for every table of the negotiated
    selection ([c.tableCols] as the call leaves it: the caller's map, or
    the whole computed subset when the caller supplied none) it holds a
    request that selects the initial rows, inserts, deletes and
    modifications and carries that table's column list, and it holds no
    other request.  When the caller supplied no restriction, the
    requested tables are the computed ones, each with an empty column
    list. *)
Theorem requests_select_everything `{Package} (w : World) (c : ovndb)
    (tables : list string) :
  filterTablesFromSchema c = Returned tables c [] →
  namesComputedTables tables (tableCols c) →
  ∃ ovs c1 requests,
    client c = Some ovs ∧
    MonitorTables w c =
      Returned (monitor w ovs (db c) requests) c1
               [EvMonitor ovs (db c) requests] ∧
    (∀ table columns, tableCols c1 !! table = Some columns →
       requests !! table =
         Some (mkRequest columns (mkSelect true true true true))) ∧
    dom requests = dom (tableCols c1) ∧
    (size (tableCols c) ≠ 0 → c1 = c) ∧
    (size (tableCols c) = 0 →
       ∀ table, table ∈ tables ↔
         requests !! table = Some (mkRequest [] (mkSelect true true true true))).
Proof.
  intros Hfilter Hnames.
  apply filterTablesFromSchema_inv in Hfilter as (ovs & Hc & -> & _ & _).
  exists ovs. destruct (decide (size (tableCols c) = 0)) as [Hsize|Hsize].
  - exists (set_tableCols (defaultCols ovs (db c)) c),
           (requestFor <$> defaultCols ovs (db c)).
    split; [done|]. split; [by apply MonitorTables_default|]. simpl.
    split; [intros table columns Hlook; by rewrite lookup_fmap, Hlook|].
    split; [apply dom_fmap_L|]. split; [done|].
    intros _ table. rewrite lookup_fmap. split.
    + intros Hin.
      by rewrite (proj2 (defaultCols_lookup ovs (db c) table []) (conj Hin eq_refl)).
    + destruct (defaultCols ovs (db c) !! table) as [columns|] eqn:Hlook; [|done].
      intros _. by apply defaultCols_lookup in Hlook as [? _].
  - exists c, (requestFor <$> tableCols c).
    split; [done|]. split.
    { rewrite (MonitorTables_restricted w c ovs Hc Hsize).
      by rewrite (proj2 (verifyLoop_range _ _ _ _) Hnames). }
    split; [intros table columns Hlook; by rewrite lookup_fmap, Hlook|].
    split; [apply dom_fmap_L|]. split; done.
Qed.

(** ** Running [connect] *)

Lemma MonitorTables_total `{Package} w c ovs :
  client c = Some ovs →
  ∃ r c1 tr, MonitorTables w c = Returned r c1 tr ∧
    client c1 = Some ovs ∧ db c1 = db c ∧ addr c1 = addr c ∧
    logLines tr = [] ∧ connectAttempts tr = 0 ∧ ticksConsumed tr = 0.
Proof.
  intros Hc. destruct (decide (size (tableCols c) = 0)) as [Hsize|Hsize].
  - rewrite (MonitorTables_default w c ovs Hc Hsize). eauto 10.
  - rewrite (MonitorTables_restricted w c ovs Hc Hsize).
    destruct (verifyLoop _ _ _); eauto 10.
Qed.

Lemma connect_refused `{Package} w c err :
  dial w (addr c) (tlsConfig c) = inl err →
  connect w c = Returned (Some err) c [EvConnect (addr c) (tlsConfig c)].
Proof.
  intros Hdial.
  cbv [connect mbind go_mbind go_bind go_get go_emit mret go_mret go_ret].
  by rewrite Hdial.
Qed.

Lemma connect_dialed `{Package} w c ovsdb :
  dial w (addr c) (tlsConfig c) = inr ovsdb →
  ∃ r c1 tr,
    MonitorTables w (set_client (Some ovsdb) c) = Returned r c1 tr ∧
    client c1 = Some ovsdb ∧ db c1 = db c ∧ addr c1 = addr c ∧
    logLines tr = [] ∧ connectAttempts tr = 0 ∧ ticksConsumed tr = 0 ∧
    connect w c =
    match r with
    | inl err =>
        Returned (Some err) (set_client None c1)
                 (EvConnect (addr c) (tlsConfig c) :: tr ++ [EvDisconnect ovsdb])
    | inr initial =>
        Returned None (set_cache (populateCache initial (cache c1)) c1)
                 (EvConnect (addr c) (tlsConfig c) :: tr ++ [EvRegister ovsdb])
    end.
Proof.
  intros Hdial.
  destruct (MonitorTables_total w (set_client (Some ovsdb) c) ovsdb eq_refl)
    as (r & c1 & tr & Hrun & Hc1 & Hdb & Haddr & Hlog & Hatt & Htick).
  exists r, c1, tr. repeat (split; [done|]).
  unfold connect, mbind, go_mbind, go_bind at 1. unfold go_get at 1.
  unfold go_bind at 1. unfold go_emit at 1. rewrite Hdial.
  unfold go_bind at 1. unfold go_modify at 1.
  unfold go_bind at 1. rewrite Hrun.
  destruct r as [err|initial].
  - cbv [connectDeferred mbind go_mbind go_bind clientDisconnect go_modify mret go_mret go_ret].
    rewrite Hc1. simpl. by rewrite ?app_nil_r.
  - cbv [connectDeferred mbind go_mbind go_bind go_emit go_modify mret go_mret go_ret].
    simpl. by rewrite ?app_nil_r.
Qed.

(** Every attempt returns; it dials once, logs nothing and keeps the
    address and the database of the client. *)
Lemma connect_total `{Package} w c :
  ∃ r c' tr, connect w c = Returned r c' tr ∧
    addr c' = addr c ∧ db c' = db c ∧
    logLines tr = [] ∧ connectAttempts tr = 1 ∧ ticksConsumed tr = 0 ∧
    head tr = Some (EvConnect (addr c) (tlsConfig c)).
Proof.
  destruct (dial w (addr c) (tlsConfig c)) as [err|ovsdb] eqn:Hdial.
  - rewrite (connect_refused w c err Hdial). eauto 10.
  - destruct (connect_dialed w c ovsdb Hdial)
      as (r & c1 & tr & _ & _ & Hdb & Haddr & Hlog & Hatt & Htick & ->).
    unfold logLines, connectAttempts, ticksConsumed in *.
    destruct r as [err|initial]; do 3 eexists; (split; [reflexivity|]);
      (split; [exact Haddr|]); (split; [exact Hdb|]); simpl;
      rewrite !omap_app, Hlog, !length_app, Hatt, Htick; done.
Qed.

(** ** Connection manager *)

(** C5.  When the transport was opened and [connect] then returns an
    error, the last thing it did was to disconnect the handle it had
    just opened, and the client holds no handle any more.  [NewClient]
    passes the error of its [connect] on with no client value.  (The
    only step after the dial that can return an error is
    [MonitorTables]: negotiation or subscription; [populateCache]
    returns nothing.) *)
Theorem connect_failure_tears_down `{Package} (w : World) (c c' : ovndb)
    (ovsdb : OvsdbClient) (err : error) (tr : list event) :
  dial w (addr c) (tlsConfig c) = inr ovsdb →
  connect w c = Returned (Some err) c' tr →
  client c' = None ∧
  last tr = Some (EvDisconnect ovsdb) ∧
  (∀ cfg : Config, c = initialOvndb cfg (db c) →
     resolveDb (Db cfg) = inr (db c) →
     NewClient w cfg = Created None (Some err) tr).
Proof.
  intros Hdial Hrun.
  destruct (connect_dialed w c ovsdb Hdial)
    as (r & c1 & tr1 & _ & _ & _ & _ & _ & _ & _ & Heq).
  rewrite Heq in Hrun. destruct r as [err'|initial]; [|done].
  injection Hrun as <- <- <-. split; [done|]. split.
  - by rewrite app_comm_cons, last_snoc.
  - intros cfg Hc Hdb. unfold NewClient. rewrite Hdb, <- Hc. by rewrite Heq.
Qed.

(** ** Running the reconnect loop *)

Lemma wrapInt_small (z : Z) :
  (- 2 ^ 63 ≤ z < 2 ^ 63)%Z → wrapInt z = z.
Proof. intros Hz. unfold wrapInt. rewrite Z.mod_small; lia. Qed.

Lemma logFailure_run retry err c :
  logFailure retry err c = Returned tt c (EvLog <$> failureLines (addr c) retry err).
Proof.
  cbv [logFailure failureLines mbind go_mbind go_bind go_get go_emit mret go_mret go_ret].
  by repeat case_decide.
Qed.

Lemma cappedLog_cons a k err errs :
  cappedLog a k (err :: errs) =
  failureLines a (Z.of_nat k) err ++ cappedLog a (S k) errs.
Proof.
  unfold cappedLog, failureLines.
  destruct (decide (Z.of_nat k < 10)%Z) as [Hlt|Hge].
  - replace (10 - k) with (S (10 - S k)) by lia.
    replace (11 - k - S (10 - S k)) with (11 - S k - (10 - S k)) by lia.
    done.
  - destruct (decide (Z.of_nat k = 10%Z)) as [Heq|Hne].
    + assert (k = 10) as -> by lia. done.
    + replace (10 - k) with 0 by lia. replace (10 - S k) with 0 by lia.
      replace (11 - k - 0) with 0 by lia. replace (11 - S k - 0) with 0 by lia.
      done.
Qed.

Lemma reconnectLoop_failed `{Package} w rest retry c err c1 tr :
  connect w c = Returned (Some err) c1 tr →
  reconnectLoop (w :: rest) retry c =
  match reconnectLoop rest (wrapInt (retry + 1)) c1 with
  | Returned s c2 tr2 =>
      Returned s c2
        (EvTick :: tr ++ (EvLog <$> failureLines (addr c1) retry err) ++ tr2)
  | Panicked tr2 =>
      Panicked (EvTick :: tr ++ (EvLog <$> failureLines (addr c1) retry err) ++ tr2)
  end.
Proof.
  intros Hrun. simpl.
  unfold mbind, go_mbind, go_bind at 1. unfold go_emit at 1.
  unfold go_bind at 1. rewrite Hrun.
  unfold go_bind at 1. rewrite logFailure_run.
  by destruct (reconnectLoop rest _ c1).
Qed.

Lemma reconnectLoop_succeeded `{Package} w rest retry c c1 tr :
  connect w c = Returned None c1 tr →
  reconnectLoop (w :: rest) retry c =
  Returned Stopped c1
    (EvTick :: tr ++ [EvLog (LogReconnected (addr c1) retry); EvTickerStop]).
Proof.
  intros Hrun. simpl.
  unfold mbind, go_mbind, go_bind at 1. unfold go_emit at 1.
  unfold go_bind at 1. by rewrite Hrun.
Qed.

Lemma trace_app_facts (tr1 tr2 : list event) :
  logLines (tr1 ++ tr2) = (logLines tr1 ++ logLines tr2)%list ∧
  connectAttempts (tr1 ++ tr2) = connectAttempts tr1 + connectAttempts tr2 ∧
  ticksConsumed (tr1 ++ tr2) = ticksConsumed tr1 + ticksConsumed tr2.
Proof.
  unfold logLines, connectAttempts, ticksConsumed.
  by rewrite !omap_app, !length_app.
Qed.

Lemma trace_log_facts (ls : list log_line) :
  logLines (EvLog <$> ls) = ls ∧
  connectAttempts (EvLog <$> ls) = 0 ∧
  ticksConsumed (EvLog <$> ls) = 0.
Proof.
  unfold logLines, connectAttempts, ticksConsumed.
  induction ls as [|l ls (IH1 & IH2 & IH3)]; [done|].
  split; [|split]; simpl; [f_equal; exact IH1 | exact IH2 | exact IH3].
Qed.

Lemma connect_failed_facts `{Package} w c err c1 tr :
  connect w c = Returned (Some err) c1 tr →
  addr c1 = addr c ∧ logLines tr = [] ∧
  connectAttempts tr = 1 ∧ ticksConsumed tr = 0.
Proof.
  intros Hrun.
  destruct (connect_total w c) as (r & c' & tr' & Heq & ? & ? & ? & ? & ? & ?).
  rewrite Hrun in Heq. by injection Heq as <- <- <-.
Qed.

Lemma allFail_length `{Package} ticks c errs c1 :
  allFail ticks c errs c1 → length errs = length ticks ∧ addr c1 = addr c.
Proof.
  revert c errs. induction ticks as [|w rest IH]; intros c [|err errs] Hfail;
    simpl in Hfail; try done.
  - by subst.
  - destruct Hfail as (c' & tr & Hrun & Hrest).
    apply connect_failed_facts in Hrun as (Haddr & _).
    destruct (IH c' errs Hrest) as [Hlen Ha]. simpl. by rewrite Hlen, Ha.
Qed.

Lemma reconnectLoop_waiting `{Package} ticks k c errs c1 :
  allFail ticks c errs c1 →
  (Z.of_nat (k + length ticks) < 2 ^ 63)%Z →
  ∃ tr,
    reconnectLoop ticks (Z.of_nat k) c =
      Returned (Waiting (Z.of_nat (k + length ticks))) c1 tr ∧
    logLines tr = cappedLog (addr c) k errs ∧
    connectAttempts tr = length ticks ∧
    ticksConsumed tr = length ticks.
Proof.
  revert k c errs. induction ticks as [|w rest IH]; intros k c [|err errs] Hfail Hk;
    simpl in Hfail; try done.
  - subst c1. exists []. simpl. rewrite Nat.add_0_r. repeat split.
    unfold cappedLog. by rewrite take_nil, drop_nil, take_nil.
  - destruct Hfail as (c' & tr & Hrun & Hrest).
    rewrite (reconnectLoop_failed w rest _ c err c' tr Hrun).
    simpl in Hk. rewrite wrapInt_small by lia.
    replace (Z.of_nat k + 1)%Z with (Z.of_nat (S k)) by lia.
    destruct (IH (S k) c' errs Hrest) as (tr2 & -> & Hlog & Hatt & Htick);
      [simpl; lia|].
    apply connect_failed_facts in Hrun as (Haddr & Hlog1 & Hatt1 & Htick1).
    eexists. split; [do 2 f_equal; simpl; lia|].
    pose proof (trace_app_facts tr ((EvLog <$> failureLines (addr c') (Z.of_nat k) err) ++ tr2))
      as (E1 & E2 & E3).
    pose proof (trace_app_facts (EvLog <$> failureLines (addr c') (Z.of_nat k) err) tr2)
      as (F1 & F2 & F3).
    pose proof (trace_log_facts (failureLines (addr c') (Z.of_nat k) err))
      as (G1 & G2 & G3).
    split; [|split].
    + change (logLines (EvTick :: ?l)) with (logLines l).
      rewrite E1, F1, G1, Hlog1, Hlog, cappedLog_cons, Haddr. done.
    + change (connectAttempts (EvTick :: ?l)) with (connectAttempts l).
      rewrite E2, F2, G2, Hatt1, Hatt. done.
    + change (ticksConsumed (EvTick :: ?l)) with (S (ticksConsumed l)).
      rewrite E3, F3, G3, Htick1, Htick. done.
Qed.

Lemma reconnectLoop_stops `{Package} fails w rest k c errs c1 c2 tr2 :
  allFail fails c errs c1 →
  connect w c1 = Returned None c2 tr2 →
  (Z.of_nat (k + length fails) < 2 ^ 63)%Z →
  ∃ tr,
    reconnectLoop (fails ++ w :: rest) (Z.of_nat k) c = Returned Stopped c2 tr ∧
    logLines tr =
      cappedLog (addr c) k errs ++
      [LogReconnected (addr c) (Z.of_nat (k + length fails))] ∧
    connectAttempts tr = S (length fails) ∧
    ticksConsumed tr = S (length fails) ∧
    last tr = Some EvTickerStop.
Proof.
  revert k c errs. induction fails as [|w' fails IH]; intros k c [|err errs] Hfail Hok Hk;
    simpl in Hfail; try done.
  - subst c1. rewrite app_nil_l, (reconnectLoop_succeeded w rest _ c c2 tr2 Hok).
    destruct (connect_total w c) as (r & c' & tr' & Heq & Haddr & _ & Hlog & Hatt & Htick & _).
    rewrite Hok in Heq. injection Heq as <- <- <-.
    eexists. split; [done|].
    pose proof (trace_app_facts tr2 [EvLog (LogReconnected (addr c2) (Z.of_nat k)); EvTickerStop])
      as (E1 & E2 & E3).
    rewrite Nat.add_0_r. repeat split.
    + change (logLines (EvTick :: ?l)) with (logLines l).
      rewrite E1, Hlog, Haddr. unfold cappedLog.
      by rewrite take_nil, drop_nil, take_nil.
    + change (connectAttempts (EvTick :: ?l)) with (connectAttempts l).
      rewrite E2, Hatt. done.
    + change (ticksConsumed (EvTick :: ?l)) with (S (ticksConsumed l)).
      rewrite E3, Htick. done.
    + rewrite app_comm_cons.
      change [EvLog (LogReconnected (addr c2) (Z.of_nat k)); EvTickerStop]
        with ([EvLog (LogReconnected (addr c2) (Z.of_nat k))] ++ [EvTickerStop]).
      by rewrite app_assoc, last_snoc.
  - destruct Hfail as (c' & tr & Hrun & Hrest).
    rewrite <- app_comm_cons.
    rewrite (reconnectLoop_failed w' _ _ c err c' tr Hrun).
    simpl in Hk. rewrite wrapInt_small by lia.
    replace (Z.of_nat k + 1)%Z with (Z.of_nat (S k)) by lia.
    destruct (IH (S k) c' errs Hrest Hok) as (tr3 & -> & Hlog & Hatt & Htick & Hlast);
      [simpl; lia|].
    apply connect_failed_facts in Hrun as (Haddr & Hlog1 & Hatt1 & Htick1).
    eexists. split; [done|].
    pose proof (trace_app_facts tr ((EvLog <$> failureLines (addr c') (Z.of_nat k) err) ++ tr3))
      as (E1 & E2 & E3).
    pose proof (trace_app_facts (EvLog <$> failureLines (addr c') (Z.of_nat k) err) tr3)
      as (F1 & F2 & F3).
    pose proof (trace_log_facts (failureLines (addr c') (Z.of_nat k) err))
      as (G1 & G2 & G3).
    repeat split.
    + change (logLines (EvTick :: ?l)) with (logLines l).
      rewrite E1, F1, G1, Hlog1, Hlog, cappedLog_cons, Haddr.
      replace (k + length (w' :: fails)) with (S k + length fails)
        by (simpl; lia).
      by rewrite app_nil_l, <- app_assoc.
    + change (connectAttempts (EvTick :: ?l)) with (connectAttempts l).
      rewrite E2, F2, G2, Hatt1, Hatt. done.
    + change (ticksConsumed (EvTick :: ?l)) with (S (ticksConsumed l)).
      rewrite E3, F3, G3, Htick1, Htick. done.
    + rewrite app_comm_cons, !app_assoc.
      rewrite last_app, Hlast. done.
Qed.

Lemma reconnect_unfold `{Package} ticks c :
  reconnect ticks c =
  match reconnectLoop ticks 0 c with
  | Returned s c' tr =>
      Returned s c' (EvNewTicker 500 :: EvLog (LogDisconnected (addr c)) :: tr)
  | Panicked tr =>
      Panicked (EvNewTicker 500 :: EvLog (LogDisconnected (addr c)) :: tr)
  end.
Proof.
  cbv [reconnect mbind go_mbind go_bind go_get go_emit].
  by destruct (reconnectLoop ticks 0 c).
Qed.

(** C6.  [reconnect] starts a ticker of 500 milliseconds and makes one
    connect attempt per tick.  However many attempts fail in a row, the
    loop is still waiting for the next tick: there is no ceiling.  It
    stops at the first attempt that succeeds, stops the ticker and logs
    how many attempts failed before.  Of the failures, the first ten are
    logged one by one, the eleventh is logged with the notice that
    logging is suppressed, and the later ones are not logged.  (The
    counter is a Go [int]: the bound on the number of failures keeps it
    from wrapping.) *)
Theorem reconnect_retries_until_success `{Package} (fails : list World)
    (c c1 : ovndb) (errs : list error) :
  allFail fails c errs c1 →
  (Z.of_nat (length fails) < 2 ^ 63)%Z →
  (∃ tr,
     reconnect fails c = Returned (Waiting (Z.of_nat (length fails))) c1 tr ∧
     head tr = Some (EvNewTicker 500) ∧
     ticksConsumed tr = length fails ∧
     connectAttempts tr = length fails ∧
     logLines tr =
       LogDisconnected (addr c) ::
       (LogReconnectFailed (addr c) <$> take 10 errs) ++
       (LogSuppressed (addr c) <$> take 1 (drop 10 errs))) ∧
  (∀ w rest c2 tr2,
     connect w c1 = Returned None c2 tr2 →
     ∃ tr,
       reconnect (fails ++ w :: rest) c = Returned Stopped c2 tr ∧
       head tr = Some (EvNewTicker 500) ∧
       last tr = Some EvTickerStop ∧
       ticksConsumed tr = S (length fails) ∧
       connectAttempts tr = S (length fails) ∧
       logLines tr =
         LogDisconnected (addr c) ::
         (LogReconnectFailed (addr c) <$> take 10 errs) ++
         (LogSuppressed (addr c) <$> take 1 (drop 10 errs)) ++
         [LogReconnected (addr c) (Z.of_nat (length fails))]).
Proof.
  intros Hfail Hbound. split.
  - destruct (reconnectLoop_waiting fails 0 c errs c1 Hfail) as (tr & Hrun & Hlog & Hatt & Htick);
      [simpl; lia|].
    rewrite reconnect_unfold. change 0%Z with (Z.of_nat 0). rewrite Hrun.
    eexists. split; [done|]. split; [done|].
    split; [exact Htick|]. split; [exact Hatt|].
    change (logLines (EvNewTicker 500 :: EvLog ?l :: ?t)) with (l :: logLines t).
    by rewrite Hlog.
  - intros w rest c2 tr2 Hok.
    destruct (reconnectLoop_stops fails w rest 0 c errs c1 c2 tr2 Hfail Hok)
      as (tr & Hrun & Hlog & Hatt & Htick & Hlast); [simpl; lia|].
    rewrite reconnect_unfold. change 0%Z with (Z.of_nat 0). rewrite Hrun.
    eexists. split; [done|]. split; [done|]. split.
    { change (EvNewTicker 500 :: EvLog (LogDisconnected (addr c)) :: tr)
        with ([EvNewTicker 500; EvLog (LogDisconnected (addr c))] ++ tr).
      by rewrite last_app, Hlast. }
    split; [exact Htick|]. split; [exact Hatt|].
    change (logLines (EvNewTicker 500 :: EvLog ?l :: ?t)) with (l :: logLines t).
    rewrite Hlog. unfold cappedLog. simpl. by rewrite <- app_assoc.
Qed.

(** C7, as amended.  A database name that is neither of the two fixed
    names nor the empty string makes [NewClient] return a configuration
    error and no client, before it dials: no event at all is produced,
    so nothing is connected to and nothing is retried. *)
Theorem unknown_identity_rejected `{Package} (w : World) (cfg : Config) :
  Db cfg ≠ DBNB → Db cfg ≠ DBSB → Db cfg ≠ "" →
  NewClient w cfg = Created None (Some ErrInvalidDb) [] ∧
  configuration_error ErrInvalidDb = true.
Proof.
  intros Hnb Hsb Hempty. split; [|done].
  unfold NewClient, resolveDb.
  rewrite decide_False by (intros [?|?]; done).
  by rewrite decide_False.
Qed.

(** C8.  With no operation to submit, [Execute] and [ExecuteR] return
    at once with a nil error ([ExecuteR] with an empty identifier list
    as well); the client is untouched, no event is produced, and in
    particular no transaction is sent (not even the handle is
    dereferenced). *)
Theorem execute_nothing (w : World) (cmds : list OvnCommand) (c : ovndb) :
  concat (Operations <$> cmds) = [] →
  Execute w cmds c = Returned None c [] ∧
  ExecuteR w cmds c = Returned ([], None) c [].
Proof.
  intros Hops. unfold Execute, ExecuteR, execute, executeR.
  by rewrite Hops.
Qed.

(** C9.  With an empty database name [NewClient] does not turn the
    configuration down: it goes on exactly as with the northbound name,
    dialling first, and the client it returns on success is bound to the
    northbound database. *)
Theorem empty_identity_defaults `{Package} (w : World) (cfg : Config) :
  Db cfg = "" →
  resolveDb (Db cfg) = inr DBNB ∧
  ∃ r c tr,
    connect w (initialOvndb cfg DBNB) =
      Returned r c (EvConnect (Addr cfg) (TLSConfig cfg) :: tr) ∧
    db c = DBNB ∧
    NewClient w cfg =
      Created (match r with None => Some c | Some _ => None end) r
              (EvConnect (Addr cfg) (TLSConfig cfg) :: tr).
Proof.
  intros Hdb. assert (resolveDb (Db cfg) = inr DBNB) as Hres
    by (rewrite Hdb; reflexivity).
  split; [done|].
  destruct (connect_total w (initialOvndb cfg DBNB))
    as (r & c & tr & Hrun & _ & Hdbc & _ & _ & _ & Hhead).
  destruct tr as [|e tr]; [done|]. injection Hhead as ->.
  exists r, c, tr. split; [done|]. split; [done|].
  unfold NewClient. rewrite Hres. simpl in Hrun. rewrite Hrun.
  by destruct r.
Qed.

(** C10.  [Close] never returns an error: when it returns, the handle was
    live, it was told to disconnect, and the result is nil.  With no
    handle [Close] faults.  That is the state in which a [connect] that
    failed after opening the transport leaves the client. *)
Theorem close_needs_live_handle `{Package} (w : World) (c c' : ovndb)
    (ovsdb : OvsdbClient) (err : error) (tr : list event) :
  dial w (addr c) (tlsConfig c) = inr ovsdb →
  connect w c = Returned (Some err) c' tr →
  Close c' = Panicked [] ∧
  (∀ k : ovndb, client k = None → Close k = Panicked []) ∧
  (∀ (k : ovndb) h, client k = Some h →
     Close k = Returned None k [EvDisconnect h]) ∧
  (∀ (k k' : ovndb) r tr', Close k = Returned r k' tr' → r = None).
Proof.
  intros Hdial Hrun.
  assert (∀ k : ovndb, client k = None → Close k = Panicked []) as Hnil.
  { intros k Hk. cbv [Close mbind go_mbind go_bind clientDisconnect]. by rewrite Hk. }
  assert (∀ (k : ovndb) h, client k = Some h →
            Close k = Returned None k [EvDisconnect h]) as Hlive.
  { intros k h Hk. cbv [Close mbind go_mbind go_bind clientDisconnect mret go_mret go_ret].
    by rewrite Hk. }
  split; [|split; [done|split; [done|]]].
  - apply Hnil.
    destruct (connect_dialed w c ovsdb Hdial)
      as (r & c1 & tr1 & _ & _ & _ & _ & _ & _ & _ & Heq).
    rewrite Heq in Hrun. destruct r; [|done]. by injection Hrun as <- <- <-.
  - intros k k' r tr' Hclose. destruct (client k) as [h|] eqn:Hk.
    + rewrite (Hlive k h Hk) in Hclose. by injection Hclose as <- _ _.
    + by rewrite (Hnil k Hk) in Hclose.
Qed.

(** ** The scenarios, run *)

Import Scenario.

Lemma scenario_tables : computedTables (H:=pkg) ovs1 DBNB = ["A"; "B"].
Proof. vm_compute. reflexivity. Defined.

Lemma scenario_default_run :
  MonitorTables (H:=pkg) up (fresh ∅) =
  Returned (inr ∅) (set_tableCols (defaultCols (H:=pkg) ovs1 DBNB) (fresh ∅))
           [EvMonitor ovs1 DBNB (requestFor <$> defaultCols (H:=pkg) ovs1 DBNB)].
Proof. by apply (MonitorTables_default (H:=pkg) up (fresh ∅) ovs1). Defined.

(** The northbound schema knows A and B, the caller restricts to A:
    A alone is monitored. *)
Lemma restricted_negotiation_witness :
  namesComputedTables ["A"; "B"] {[ "A" := [] ]} ∧
  ∃ ovs requests,
    MonitorTables (H:=pkg) up (fresh {[ "A" := [] ]}) =
      Returned (monitor up ovs DBNB requests) (fresh {[ "A" := [] ]})
               [EvMonitor ovs DBNB requests] ∧
    dom requests = {[ "A" ]}.
Proof.
  assert (namesComputedTables ["A"; "B"] {[ "A" := [] ]}) as Hnames.
  { intros table columns [<- <-]%lookup_singleton_Some. split; [left|done]. }
  split; [exact Hnames|].
  destruct (restricted_negotiation (H:=pkg) up (fresh {[ "A" := [] ]}) ["A"; "B"])
    as (_ & ovs & requests & _ & _ & Hrun & Hdom & _).
  - rewrite (filterTablesFromSchema_run (H:=pkg) (fresh {[ "A" := [] ]}) ovs1 eq_refl).
    simpl. by rewrite scenario_tables.
  - simpl. rewrite map_size_singleton. lia.
  - exact Hnames.
  - exists ovs, requests. split; [exact Hrun|].
    rewrite Hdom. simpl. apply dom_singleton_L.
Defined.

(** C1, as stated, fails for the empty restriction map: it names no
    table, yet everything the schema knows is monitored. *)
Lemma empty_restriction_monitors_all :
  namesComputedTables (computedTables (H:=pkg) ovs1 DBNB) (tableCols (fresh ∅)) ∧
  ¬ monitorsNamedTables (H:=pkg) up (fresh ∅).
Proof.
  split.
  - intros table columns Hlook. simpl in Hlook. by rewrite lookup_empty in Hlook.
  - intros (r & c' & ovs & requests & Hrun & Hdom).
    rewrite scenario_default_run in Hrun. injection Hrun as _ _ _ <-.
    assert ("A" ∈ dom (requestFor <$> defaultCols (H:=pkg) ovs1 DBNB)) as Hin.
    { rewrite dom_fmap_L. apply elem_of_dom. exists [].
      apply defaultCols_lookup. split; [|done].
      rewrite scenario_tables. left. }
    rewrite Hdom in Hin. simpl in Hin. rewrite dom_empty_L in Hin.
    by apply not_elem_of_empty in Hin.
Qed.

Lemma column_restriction_rejected_witness :
  tableCols (fresh {[ "A" := ["name"] ]}) !! "A" = Some ["name"] ∧
  ∃ err,
    MonitorTables (H:=pkg) up (fresh {[ "A" := ["name"] ]}) =
      Returned (inl err) (fresh {[ "A" := ["name"] ]}) [] ∧
    configuration_error err = true.
Proof.
  assert (tableCols (fresh {[ "A" := ["name"] ]}) !! "A" = Some ["name"]) as Hlook
    by apply lookup_singleton_eq.
  split; [exact Hlook|].
  apply (column_restriction_rejected (H:=pkg) up _ ovs1 "A" ["name"]);
    [reflexivity | exact Hlook | discriminate].
Defined.

(** A reconnect that walks the maps in the other order subscribes as the
    first connect did. *)
Lemma request_builder_pure_witness :
  MonitorTables (H:=pkg) upRev
    (set_tableCols (defaultCols (H:=pkg) ovs1 DBNB) (fresh ∅)) =
  Returned (inr ∅) (set_tableCols (defaultCols (H:=pkg) ovs1 DBNB) (fresh ∅))
           [EvMonitor ovs1 DBNB (requestFor <$> defaultCols (H:=pkg) ovs1 DBNB)].
Proof.
  destruct (request_builder_pure (H:=pkg) up upRev (fresh ∅) _
              (set_tableCols (defaultCols (H:=pkg) ovs1 DBNB) (fresh ∅))
              _ ovs1 ovs1 DBNB _ scenario_default_run
              eq_refl eq_refl eq_refl) as (_ & _ & _ & Hrun & _).
  exact (Hrun eq_refl).
Defined.

(** No restriction, a schema with A and B: both are requested, with
    every change class and all columns. *)
Lemma requests_select_everything_witness :
  ∃ ovs c1 requests,
    client (fresh ∅) = Some ovs ∧
    MonitorTables (H:=pkg) up (fresh ∅) =
      Returned (monitor up ovs (db (fresh ∅)) requests) c1
               [EvMonitor ovs (db (fresh ∅)) requests] ∧
    (∀ table columns, tableCols c1 !! table = Some columns →
       requests !! table =
         Some (mkRequest columns (mkSelect true true true true))) ∧
    dom requests = dom (tableCols c1) ∧
    (size (tableCols (fresh ∅)) ≠ 0 → c1 = fresh ∅) ∧
    (size (tableCols (fresh ∅)) = 0 →
       ∀ table, table ∈ ["A"; "B"] ↔
         requests !! table = Some (mkRequest [] (mkSelect true true true true))).
Proof.
  apply (requests_select_everything (H:=pkg) up (fresh ∅) ["A"; "B"]).
  - rewrite (filterTablesFromSchema_run (H:=pkg) (fresh ∅) ovs1 eq_refl).
    simpl. by rewrite scenario_tables.
  - intros table columns Hlook. simpl in Hlook.
    by rewrite lookup_empty in Hlook.
Defined.

(** The transport opens, the subscription is rejected. *)
Lemma connect_failure_tears_down_witness :
  ∃ c' tr,
    connect (H:=pkg) deaf (initialOvndb (cfg DBNB ∅) DBNB) =
      Returned (Some rejected) c' tr ∧
    client c' = None ∧
    last tr = Some (EvDisconnect ovs1) ∧
    NewClient (H:=pkg) deaf (cfg DBNB ∅) = Created None (Some rejected) tr.
Proof.
  assert (∃ c' tr, connect (H:=pkg) deaf (initialOvndb (cfg DBNB ∅) DBNB) =
                   Returned (Some rejected) c' tr) as (c' & tr & Hrun)
    by (vm_compute; eauto).
  destruct (connect_failure_tears_down (H:=pkg) deaf _ c' ovs1 rejected tr
              eq_refl Hrun) as (Hnil & Hlast & Hnew).
  exists c', tr. repeat split; [exact Hrun | exact Hnil | exact Hlast|].
  apply Hnew; reflexivity.
Defined.

Lemma reconnect_retries_until_success_witness :
  ∃ c1 tr,
    reconnect (H:=pkg) [down; deaf] (fresh ∅) = Returned (Waiting 2) c1 tr ∧
    connectAttempts tr = 2 ∧
    logLines tr =
      [LogDisconnected (addr (fresh ∅));
       LogReconnectFailed (addr (fresh ∅)) refused;
       LogReconnectFailed (addr (fresh ∅)) rejected].
Proof.
  assert (∃ c1, allFail (H:=pkg) [down; deaf] (fresh ∅) [refused; rejected] c1)
    as [c1 Hfail].
  { eexists. simpl. do 2 eexists. split; [vm_compute; reflexivity|].
    do 2 eexists. split; [vm_compute; reflexivity|]. reflexivity. }
  destruct (reconnect_retries_until_success (H:=pkg) [down; deaf] (fresh ∅) c1
              [refused; rejected] Hfail)
    as ((tr & Hrun & _ & _ & Hatt & Hlog) & _).
  - vm_compute. reflexivity.
  - exists c1, tr. split; [exact Hrun|]. split; [exact Hatt | exact Hlog].
Defined.

Lemma unknown_identity_rejected_witness :
  NewClient (H:=pkg) up (cfg "OVN_IC_Northbound" ∅) =
    Created None (Some ErrInvalidDb) [] ∧
  configuration_error ErrInvalidDb = true.
Proof.
  apply (unknown_identity_rejected (H:=pkg) up (cfg "OVN_IC_Northbound" ∅));
    discriminate.
Defined.

(** C7, as stated, fails for the empty name: it is neither of the two
    fixed names, and [NewClient] connects all the same. *)
Lemma empty_identity_not_rejected :
  Db (cfg "" ∅) ≠ DBNB ∧ Db (cfg "" ∅) ≠ DBSB ∧
  ¬ rejectsIdentity (H:=pkg) up (cfg "" ∅).
Proof.
  split; [discriminate|]. split; [discriminate|].
  unfold rejectsIdentity. intros Hrun. vm_compute in Hrun. discriminate Hrun.
Qed.

Lemma execute_nothing_witness :
  Execute up [] (fresh ∅) = Returned None (fresh ∅) [] ∧
  ExecuteR up [] (fresh ∅) = Returned ([], None) (fresh ∅) [].
Proof. apply (execute_nothing up [] (fresh ∅)). reflexivity. Defined.

Lemma empty_identity_defaults_witness :
  resolveDb (Db (cfg "" ∅)) = inr DBNB ∧
  ∃ r c tr,
    connect (H:=pkg) up (initialOvndb (cfg "" ∅) DBNB) =
      Returned r c (EvConnect (Addr (cfg "" ∅)) (TLSConfig (cfg "" ∅)) :: tr) ∧
    db c = DBNB ∧
    NewClient (H:=pkg) up (cfg "" ∅) =
      Created (match r with None => Some c | Some _ => None end) r
              (EvConnect (Addr (cfg "" ∅)) (TLSConfig (cfg "" ∅)) :: tr).
Proof. apply (empty_identity_defaults (H:=pkg) up (cfg "" ∅)). reflexivity. Defined.

(** After a reconnect attempt whose subscription was rejected, [Close]
    faults. *)
Lemma close_needs_live_handle_witness :
  ∃ c' tr,
    connect (H:=pkg) deaf (fresh ∅) = Returned (Some rejected) c' tr ∧
    Close c' = Panicked [].
Proof.
  assert (∃ c' tr, connect (H:=pkg) deaf (fresh ∅) =
                   Returned (Some rejected) c' tr) as (c' & tr & Hrun)
    by (vm_compute; eauto).
  destruct (close_needs_live_handle (H:=pkg) deaf (fresh ∅) c' ovs1 rejected tr
              eq_refl Hrun) as (Hfault & _).
  exists c', tr. split; [exact Hrun | exact Hfault].
Defined.

(** * Further properties of [client.go] *)

(** ** More on the verification loop *)

Lemma visit_lookup (r : MapRange) (m : gmap string (list string)) table columns :
  (table, columns) ∈ visit r m ↔ m !! table = Some columns.
Proof. rewrite (visit_perm r m). apply elem_of_map_to_list. Qed.

Lemma supportedLoop_None tables table :
  supportedLoop tables ∅ !! table = None ↔ table ∉ tables.
Proof.
  rewrite eq_None_not_Some, supportedLoop_lookup, lookup_empty. split.
  - intros Hno Hin. apply Hno. by left.
  - intros Hout [Hin|Hsome]; [done | by destruct Hsome].
Qed.

Lemma verifyLoop_Some supported database entries err :
  verifyLoop supported database entries = Some err →
  (err = ErrColumnsNotSupported ∧
   ∃ table columns, (table, columns) ∈ entries ∧
     is_Some (supported !! table) ∧ columns ≠ []) ∨
  (∃ table columns, err = ErrTableNotSupported table database ∧
     (table, columns) ∈ entries ∧ supported !! table = None).
Proof.
  induction entries as [|[table columns] rest IH]; simpl; [done|].
  destruct (decide (is_Some (supported !! table))) as [Hsup|Hsup].
  - destruct (decide (length columns ≠ 0)) as [Hlen|Hlen].
    + intros [= <-]. left. split; [done|]. exists table, columns.
      split; [left|]. split; [done|]. by destruct columns.
    + intros Hrest. destruct (IH Hrest) as [(-> & t & cols & Hin & ?)|(t & cols & -> & Hin & ?)].
      * left. split; [done|]. exists t, cols. split; [by right | done].
      * right. exists t, cols. split; [done|]. split; [by right | done].
  - intros [= <-]. right. exists table, columns. split; [done|].
    split; [left|]. by apply eq_None_not_Some.
Qed.

(** A returned configuration error is justified by an entry of the
    restriction, whatever the order of the walk. *)
Lemma MonitorTables_rejected `{Package} w c ovs err :
  client c = Some ovs → size (tableCols c) ≠ 0 →
  verifyLoop (supportedLoop (computedTables ovs (db c)) ∅) (db c)
             (visit (rangeVerify w) (tableCols c)) = Some err →
  MonitorTables w c = Returned (inl err) c [] ∧
  ((err = ErrColumnsNotSupported ∧
    ∃ table columns, tableCols c !! table = Some columns ∧
      table ∈ computedTables ovs (db c) ∧ columns ≠ []) ∨
   (∃ table columns, err = ErrTableNotSupported table (db c) ∧
      tableCols c !! table = Some columns ∧
      table ∉ computedTables ovs (db c))).
Proof.
  intros Hc Hsize Hverify.
  rewrite (MonitorTables_restricted w c ovs Hc Hsize), Hverify. split; [done|].
  apply verifyLoop_Some in Hverify
    as [(-> & t & cols & Hin & Hsup & Hne)|(t & cols & -> & Hin & Hsup)].
  - left. split; [done|]. exists t, cols. apply visit_lookup in Hin.
    split; [done|]. split; [|done].
    apply supportedLoop_lookup in Hsup as [?|Hsup]; [done|].
    rewrite lookup_empty in Hsup. by destruct Hsup.
  - right. exists t, cols. apply visit_lookup in Hin.
    split; [done|]. split; [done|]. by apply supportedLoop_None.
Qed.

Lemma computedTables_no_schema `{Package} ovs database :
  Schema ovs !! database = None → computedTables ovs database = [].
Proof.
  intros Hnone. unfold computedTables, schemaOf. rewrite Hnone. simpl.
  induction (canonicalTables database) as [|table rest IH]; [done|].
  rewrite filter_cons, IH. rewrite decide_False; [done|].
  rewrite lookup_empty. by intros [? ?].
Qed.

(** ** Schema negotiation: the error paths *)

(** X1.  When every column list of the restriction is empty and some
    named table is not in the computed subset, [MonitorTables] returns
    the unsupported-table error for the client's database, naming a table
    of the restriction that the computed subset lacks; the client is
    unchanged and nothing is sent. *)
Theorem unknown_table_rejected `{Package} (w : World) (c : ovndb)
    (ovs : OvsdbClient) (table : string) (columns : list string) :
  client c = Some ovs →
  tableCols c !! table = Some columns →
  table ∉ computedTables ovs (db c) →
  (∀ t cols, tableCols c !! t = Some cols → cols = []) →
  ∃ t, MonitorTables w c = Returned (inl (ErrTableNotSupported t (db c))) c [] ∧
       is_Some (tableCols c !! t) ∧ t ∉ computedTables ovs (db c).
Proof.
  intros Hc Hlook Hout Hempty.
  assert (size (tableCols c) ≠ 0) as Hsize
    by (apply (map_size_ne_0_lookup_2 _ table); eauto).
  destruct (verifyLoop (supportedLoop (computedTables ovs (db c)) ∅) (db c)
              (visit (rangeVerify w) (tableCols c))) as [err|] eqn:Hverify.
  - destruct (MonitorTables_rejected w c ovs err Hc Hsize Hverify)
      as (Hrun & [(_ & t & cols & Hl & _ & Hne)|(t & cols & -> & Hl & Ht)]).
    + by rewrite (Hempty t cols Hl) in Hne.
    + exists t. split; [done|]. split; [eauto | done].
  - apply verifyLoop_range in Hverify.
    by destruct (Hverify table columns Hlook) as [? _].
Qed.

(** X2.  Whatever [MonitorTables] subscribes to is a table of the
    canonical list that the fetched schema knows, requested with all its
    columns: no request ever carries a column list, and in restricted
    mode a subscription is only sent when the whole restriction is
    valid. *)
Theorem subscription_is_full_rows `{Package} (w : World) (c c1 : ovndb)
    (r : error + TableUpdates) (h : OvsdbClient) (d : string)
    (requests : gmap string MonitorRequest) :
  MonitorTables w c = Returned r c1 [EvMonitor h d requests] →
  namesComputedTables (computedTables h (db c)) (tableCols c) ∧
  ∀ table request, requests !! table = Some request →
    Columns request = [] ∧ table ∈ computedTables h (db c) ∧
    table ∈ canonicalTables (db c) ∧
    is_Some (Tables (schemaOf h (db c)) !! table).
Proof.
  intros Hrun.
  apply MonitorTables_subscribed in Hrun as (Hc & -> & -> & -> & Hcase).
  assert (namesComputedTables (computedTables h (db c)) (tableCols c1)) as Hnames.
  { destruct Hcase as [(_ & -> & Hverify)|(_ & ->)].
    - by apply verifyLoop_range in Hverify.
    - intros table columns Hlook. by apply defaultCols_lookup in Hlook. }
  split.
  - destruct Hcase as [(_ & -> & _)|(Hzero & _)]; [done|].
    apply map_size_empty_iff in Hzero. rewrite Hzero.
    intros table columns Hlook. by rewrite lookup_empty in Hlook.
  - intros table request Hreq. rewrite lookup_fmap in Hreq.
    destruct (tableCols c1 !! table) as [columns|] eqn:Hlook; [|done].
    injection Hreq as <-. destruct (Hnames table columns Hlook) as [Hin ->].
    split; [done|]. split; [done|].
    unfold computedTables in Hin. apply list_elem_of_filter in Hin. tauto.
Qed.

(** X3.  When the handle carries no schema for the client's database,
    the computed subset is empty: without a restriction [MonitorTables]
    subscribes with an empty request set and leaves the client as it
    was; with any restriction it returns a configuration error and sends
    nothing. *)
Theorem missing_database_schema `{Package} (w : World) (c : ovndb)
    (ovs : OvsdbClient) :
  client c = Some ovs →
  Schema ovs !! db c = None →
  filterTablesFromSchema c = Returned [] c [] ∧
  (size (tableCols c) = 0 →
     MonitorTables w c =
       Returned (monitor w ovs (db c) ∅) c [EvMonitor ovs (db c) ∅]) ∧
  (size (tableCols c) ≠ 0 →
     ∃ err, MonitorTables w c = Returned (inl err) c [] ∧
            configuration_error err = true).
Proof.
  intros Hc Hnone.
  pose proof (computedTables_no_schema ovs (db c) Hnone) as Hempty.
  split; [|split].
  - by rewrite (filterTablesFromSchema_run c ovs Hc), Hempty.
  - intros Hsize. rewrite (MonitorTables_default w c ovs Hc Hsize).
    unfold defaultCols. rewrite Hempty. simpl. rewrite fmap_empty.
    apply map_size_empty_iff in Hsize.
    assert (set_tableCols ∅ c = c) as ->
      by (rewrite <- Hsize; apply set_tableCols_same).
    done.
  - intros Hsize. rewrite (MonitorTables_restricted w c ovs Hc Hsize).
    destruct (verifyLoop _ _ _) as [err|] eqn:Hverify.
    + exists err. split; [done|]. by eapply verifyLoop_configuration.
    + apply verifyLoop_range in Hverify. rewrite Hempty in Hverify.
      apply map_size_ne_0_lookup_1 in Hsize as (table & columns & Hlook).
      destruct (Hverify table columns Hlook) as [Hin _].
      by apply elem_of_nil in Hin.
Qed.

(** X4.  An error returned by [MonitorTables] is either a configuration
    error raised before anything was sent, with the client unchanged and
    an entry of the restriction to blame, or the error with which the
    remote answered the one subscription that was sent. *)
Theorem monitor_error_taxonomy `{Package} (w : World) (c c1 : ovndb)
    (err : error) (tr : list event) :
  MonitorTables w c = Returned (inl err) c1 tr →
  (tr = [] ∧ c1 = c ∧ configuration_error err = true ∧
   ∃ table columns, tableCols c !! table = Some columns ∧
     (err = ErrColumnsNotSupported ∧ columns ≠ [] ∨
      err = ErrTableNotSupported table (db c))) ∨
  (∃ h requests, tr = [EvMonitor h (db c) requests] ∧ client c = Some h ∧
     monitor w h (db c) requests = inl err).
Proof.
  intros Hrun. destruct (client c) as [ovs|] eqn:Hc;
    [|by rewrite MonitorTables_nil_client in Hrun].
  destruct (decide (size (tableCols c) = 0)) as [Hsize|Hsize].
  - rewrite (MonitorTables_default w c ovs Hc Hsize) in Hrun.
    injection Hrun as Hmon _ <-. right. eauto.
  - destruct (verifyLoop (supportedLoop (computedTables ovs (db c)) ∅) (db c)
                (visit (rangeVerify w) (tableCols c))) as [err'|] eqn:Hverify.
    + destruct (MonitorTables_rejected w c ovs err' Hc Hsize Hverify) as (Heq & Hwhy).
      rewrite Heq in Hrun. injection Hrun as -> <- <-. left.
      split; [done|]. split; [done|].
      split; [by eapply verifyLoop_configuration|].
      destruct Hwhy as [(-> & t & cols & Hl & _ & Hne)|(t & cols & -> & Hl & _)];
        exists t, cols; (split; [done|]); [left | right]; done.
    + rewrite (MonitorTables_restricted w c ovs Hc Hsize), Hverify in Hrun.
      injection Hrun as Hmon _ <-. right. eauto.
Qed.

Lemma MonitorTables_frame `{Package} w c ovs r c1 tr :
  client c = Some ovs →
  MonitorTables w c = Returned r c1 tr →
  client c1 = Some ovs ∧ cache c1 = cache c ∧ sameSettings c c1 ∧
  (c1 = c ∨ size (tableCols c) = 0 ∧
            c1 = set_tableCols (defaultCols ovs (db c)) c).
Proof.
  intros Hc Hrun. destruct (decide (size (tableCols c) = 0)) as [Hsize|Hsize].
  - rewrite (MonitorTables_default w c ovs Hc Hsize) in Hrun.
    injection Hrun as _ <- _. repeat split; auto.
  - rewrite (MonitorTables_restricted w c ovs Hc Hsize) in Hrun.
    destruct (verifyLoop _ _ _); injection Hrun as _ <- _;
      repeat split; auto.
Qed.

Lemma MonitorTables_answered `{Package} w c initial c1 tr :
  MonitorTables w c = Returned (inr initial) c1 tr →
  ∃ h requests, tr = [EvMonitor h (db c) requests] ∧ client c = Some h ∧
                monitor w h (db c) requests = inr initial.
Proof.
  intros Hrun. destruct (client c) as [ovs|] eqn:Hc;
    [|by rewrite MonitorTables_nil_client in Hrun].
  destruct (decide (size (tableCols c) = 0)) as [Hsize|Hsize].
  - rewrite (MonitorTables_default w c ovs Hc Hsize) in Hrun.
    injection Hrun as Hmon _ <-. eauto.
  - rewrite (MonitorTables_restricted w c ovs Hc Hsize) in Hrun.
    destruct (verifyLoop _ _ _); [done|].
    injection Hrun as Hmon _ <-. eauto.
Qed.

(** X5.  The defaulted selection sticks.  After a [MonitorTables] that
    found no restriction and filled [c.tableCols] from the schema, a
    later [MonitorTables] against a schema that has lost one of those
    tables takes the filled map for a restriction and returns the
    unsupported-table error, although the caller never restricted
    anything. *)
Theorem default_selection_sticks `{Package} (w1 w2 : World) (c c1 c2 : ovndb)
    (h1 h2 : OvsdbClient) (r1 : error + TableUpdates) (tr1 : list event)
    (table : string) :
  client c = Some h1 →
  size (tableCols c) = 0 →
  MonitorTables w1 c = Returned r1 c1 tr1 →
  client c2 = Some h2 →
  db c2 = db c →
  tableCols c2 = tableCols c1 →
  table ∈ computedTables h1 (db c) →
  table ∉ computedTables h2 (db c) →
  ∃ t, MonitorTables w2 c2 =
         Returned (inl (ErrTableNotSupported t (db c))) c2 [] ∧
       t ∈ computedTables h1 (db c) ∧ t ∉ computedTables h2 (db c).
Proof.
  intros Hc Hzero Hfirst Hc2 Hdb Hcols Hin Hout.
  rewrite (MonitorTables_default w1 c h1 Hc Hzero) in Hfirst.
  injection Hfirst as _ <- _. simpl in Hcols.
  assert (tableCols c2 !! table = Some []) as Hlook
    by (rewrite Hcols; by apply defaultCols_lookup).
  assert (size (tableCols c2) ≠ 0) as Hsize
    by (apply (map_size_ne_0_lookup_2 _ table); eauto).
  destruct (verifyLoop (supportedLoop (computedTables h2 (db c2)) ∅) (db c2)
              (visit (rangeVerify w2) (tableCols c2))) as [err|] eqn:Hverify.
  - destruct (MonitorTables_rejected w2 c2 h2 err Hc2 Hsize Hverify)
      as (Hrun & [(_ & t & cols & Hl & _ & Hne)|(t & cols & -> & Hl & Ht)]).
    + rewrite Hcols in Hl. by apply defaultCols_lookup in Hl as [_ ->].
    + exists t. rewrite Hdb in *. split; [done|]. split; [|done].
      rewrite Hcols in Hl. by apply defaultCols_lookup in Hl as [? _].
  - apply verifyLoop_range in Hverify.
    destruct (Hverify table [] Hlook) as [Hin2 _]. by rewrite Hdb in Hin2.
Qed.

(** ** [connect] and [NewClient]: what a caller gets *)

(** X6.  A [connect] that returns nil dialled, sent exactly one
    subscription on the new handle, which the remote answered with the
    initial rows, loaded them into the cache and registered the notifier
    on the new handle, in this order and nothing else; the client then
    holds the new handle. *)
Theorem connect_success_inversion `{Package} (w : World) (c c' : ovndb)
    (tr : list event) :
  connect w c = Returned None c' tr →
  ∃ ovsdb requests initial,
    dial w (addr c) (tlsConfig c) = inr ovsdb ∧
    monitor w ovsdb (db c) requests = inr initial ∧
    tr = [EvConnect (addr c) (tlsConfig c); EvMonitor ovsdb (db c) requests;
          EvRegister ovsdb] ∧
    client c' = Some ovsdb ∧
    cache c' = populateCache initial (cache c) ∧
    dom requests = dom (tableCols c').
Proof.
  intros Hrun. destruct (dial w (addr c) (tlsConfig c)) as [err|ovsdb] eqn:Hdial.
  - by rewrite (connect_refused w c err Hdial) in Hrun.
  - destruct (connect_dialed w c ovsdb Hdial)
      as (r & c1 & tr1 & Hmon & Hc1 & _ & _ & _ & _ & _ & Heq).
    rewrite Heq in Hrun. destruct r as [err|initial]; [done|].
    injection Hrun as <- <-.
    destruct (MonitorTables_frame w (set_client (Some ovsdb) c) ovsdb _ c1 tr1 eq_refl Hmon)
      as (_ & Hcache & _ & _).
    destruct (MonitorTables_answered w _ initial c1 tr1 Hmon)
      as (h & requests & -> & [= <-] & Hans).
    apply MonitorTables_subscribed in Hmon as (_ & _ & _ & Hreq & _).
    exists ovsdb, requests, initial. simpl in *.
    repeat split; try done.
    + by rewrite Hcache.
    + rewrite Hreq. apply dom_fmap_L.
Qed.

(** X7.  [connect] always returns (it never dereferences a nil handle).
    It leaves the database name, the address, the callbacks, the TLS
    material and the reconnect flag alone; when it fails the cache is
    untouched as well, the handle is the old one if the dial failed and
    nil otherwise; [c.tableCols] changes only if it was empty. *)
Theorem connect_frame `{Package} (w : World) (c : ovndb) :
  ∃ r c' tr,
    connect w c = Returned r c' tr ∧
    sameSettings c c' ∧
    (tableCols c' = tableCols c ∨ size (tableCols c) = 0) ∧
    (r = None → is_Some (client c')) ∧
    (∀ err, r = Some err →
       cache c' = cache c ∧
       (client c' = client c ∧ dial w (addr c) (tlsConfig c) = inl err ∨
        client c' = None ∧ ∃ ovsdb, dial w (addr c) (tlsConfig c) = inr ovsdb)).
Proof.
  destruct (dial w (addr c) (tlsConfig c)) as [err|ovsdb] eqn:Hdial.
  - rewrite (connect_refused w c err Hdial). do 3 eexists. split; [done|].
    split; [done|]. split; [by left|]. split; [done|].
    intros err' [= <-]. split; [done|]. by left.
  - destruct (connect_dialed w c ovsdb Hdial)
      as (r & c1 & tr1 & Hmon & Hc1 & _ & _ & _ & _ & _ & ->).
    destruct (MonitorTables_frame w (set_client (Some ovsdb) c) ovsdb _ c1 tr1 eq_refl Hmon)
      as (_ & Hcache & Hsame & Hcols).
    assert (tableCols c1 = tableCols c ∨ size (tableCols c) = 0) as Hcols'.
    { destruct Hcols as [->|[? _]]; [by left | by right]. }
    destruct r as [err|initial]; do 3 eexists; (split; [done|]);
      (split; [exact Hsame|]); (split; [exact Hcols'|]).
    + split; [done|]. intros err' _. split; [exact Hcache|]. right. eauto.
    + split; [|done]. intros _. simpl. eauto.
Qed.

(** X8.  [NewClient] faults on a nil configuration, at [cfg.Db].  On
    every other configuration it does not fault and returns exactly one
    of a client and an error.  A returned client holds a live handle, is
    bound to one of the two fixed databases and carries the address,
    callbacks, TLS material and reconnect flag of the configuration. *)
Theorem NewClient_exclusive `{Package} (w : World) :
  NewClientPtr w None = CreateFaulted [] ∧
  ∀ cfg : Config,
    ∃ cl err tr,
      NewClientPtr w (Some cfg) = Created cl err tr ∧
      (cl = None ↔ is_Some err) ∧
      ∀ c, cl = Some c →
        is_Some (client c) ∧ (db c = DBNB ∨ db c = DBSB) ∧
        addr c = Addr cfg ∧ tlsConfig c = TLSConfig cfg ∧
        signalCB c = SignalCB cfg ∧ disconnectCB c = DisconnectCB cfg ∧
        reconn c = Reconnect cfg.
Proof.
  split; [done|]. intros cfg.
  unfold NewClientPtr, NewClient.
  destruct (resolveDb (Db cfg)) as [err|database] eqn:Hres.
  - exists None, (Some err), []. split; [done|]. split; [|done].
    split; [by eexists | done].
  - assert (database = DBNB ∨ database = DBSB) as Hdb.
    { unfold resolveDb in Hres. repeat case_decide; simplify_eq; tauto. }
    destruct (connect_frame w (initialOvndb cfg database))
      as (r & c' & tr & -> & (E1 & E2 & E3 & E4 & E5 & E6) & _ & Hlive & _).
    simpl in *. destruct r as [err|].
    + exists None, (Some err), tr. split; [done|]. split; [|done].
      split; [by eexists | done].
    + exists (Some c'), None, tr. split; [done|]. split.
      * split; [done | by intros [? ?]].
      * intros c [= <-]. rewrite E1, E2, E3, E4, E5, E6. auto 10.
Qed.

(** X9.  With a valid database name and a restriction that gives some
    table a non-empty column list, [NewClient] opens the transport,
    closes it again without subscribing and returns a configuration
    error and no client. *)
Theorem NewClient_column_restriction `{Package} (w : World) (cfg : Config)
    (database : string) (ovs : OvsdbClient) (table : string)
    (columns : list string) :
  resolveDb (Db cfg) = inr database →
  dial w (Addr cfg) (TLSConfig cfg) = inr ovs →
  TableCols cfg !! table = Some columns →
  columns ≠ [] →
  ∃ err,
    NewClient w cfg =
      Created None (Some err)
              [EvConnect (Addr cfg) (TLSConfig cfg); EvDisconnect ovs] ∧
    configuration_error err = true.
Proof.
  intros Hres Hdial Hlook Hne. unfold NewClient. rewrite Hres.
  destruct (connect_dialed w (initialOvndb cfg database) ovs Hdial)
    as (r & c1 & tr1 & Hmon & _ & _ & _ & _ & _ & _ & ->).
  assert (size (TableCols cfg) ≠ 0) as Hsize
    by (apply (map_size_ne_0_lookup_2 _ table); eauto).
  rewrite (MonitorTables_restricted w (set_client (Some ovs) (initialOvndb cfg database)) ovs eq_refl Hsize) in Hmon.
  destruct (verifyLoop _ _ _) as [err|] eqn:Hverify.
  - injection Hmon as <- <- <-. exists err. split; [done|].
    by eapply verifyLoop_configuration.
  - apply verifyLoop_range in Hverify.
    by destruct (Hverify table columns Hlook) as [_ ?].
Qed.

(** X10.  With a valid database name, no restriction, a dial that
    succeeds and a subscription that is answered, [NewClient] returns a
    client whose selection is the computed subset of the canonical list
    of that database, each table with all columns, whose cache holds the
    initial rows, and it has subscribed to exactly those tables. *)
Theorem NewClient_monitors_computed_subset `{Package} (w : World)
    (cfg : Config) (database : string) (ovs : OvsdbClient)
    (initial : TableUpdates) :
  resolveDb (Db cfg) = inr database →
  size (TableCols cfg) = 0 →
  dial w (Addr cfg) (TLSConfig cfg) = inr ovs →
  monitor w ovs database (requestFor <$> defaultCols ovs database) = inr initial →
  ∃ c requests,
    NewClient w cfg =
      Created (Some c) None
              [EvConnect (Addr cfg) (TLSConfig cfg);
               EvMonitor ovs database requests; EvRegister ovs] ∧
    client c = Some ovs ∧ db c = database ∧
    cache c = populateCache initial ∅ ∧
    (∀ table, tableCols c !! table = Some [] ↔
              table ∈ computedTables ovs database) ∧
    (∀ table, table ∈ dom requests ↔ table ∈ computedTables ovs database).
Proof.
  intros Hres Hzero Hdial Hans. unfold NewClient. rewrite Hres.
  destruct (connect_dialed w (initialOvndb cfg database) ovs Hdial)
    as (r & c1 & tr1 & Hmon & _ & _ & _ & _ & _ & _ & ->).
  rewrite (MonitorTables_default w (set_client (Some ovs) (initialOvndb cfg database)) ovs eq_refl Hzero) in Hmon.
  simpl in Hmon. rewrite Hans in Hmon. injection Hmon as <- <- <-.
  do 2 eexists. split; [done|]. simpl.
  split; [done|]. split; [done|]. split; [done|]. split.
  - intros table. rewrite defaultCols_lookup. tauto.
  - intros table. rewrite dom_fmap_L, elem_of_dom. split.
    + intros [columns Hlook]. by apply defaultCols_lookup in Hlook as [? _].
    + intros Hin. exists []. by apply defaultCols_lookup.
Qed.

(** ** The reconnect loop as a whole *)

Lemma sameSettings_trans c1 c2 c3 :
  sameSettings c1 c2 → sameSettings c2 c3 → sameSettings c1 c3.
Proof.
  unfold sameSettings.
  intros (A1 & A2 & A3 & A4 & A5 & A6) (B1 & B2 & B3 & B4 & B5 & B6).
  rewrite B1, B2, B3, B4, B5, B6. auto 10.
Qed.

Lemma connect_outcome `{Package} w c :
  ∃ r c' tr, connect w c = Returned r c' tr ∧ sameSettings c c' ∧
    connectAttempts tr = 1 ∧ ticksConsumed tr = 0 ∧
    (r = None → ∃ h, client c' = Some h ∧ EvRegister h ∈ tr).
Proof.
  destruct (connect_total w c) as (r & c' & tr & Hrun & _ & _ & _ & Hatt & Htick & _).
  exists r, c', tr. split; [done|].
  destruct (dial w (addr c) (tlsConfig c)) as [err|ovsdb] eqn:Hdial.
  - rewrite (connect_refused w c err Hdial) in Hrun.
    injection Hrun as <- <- <-. repeat split; done.
  - destruct (connect_dialed w c ovsdb Hdial)
      as (r1 & c1 & tr1 & Hmon & Hc1 & _ & _ & _ & _ & _ & Heq).
    destruct (MonitorTables_frame w (set_client (Some ovsdb) c) ovsdb _ c1 tr1 eq_refl Hmon)
      as (_ & _ & Hsame & _).
    rewrite Heq in Hrun. destruct r1 as [err|initial];
      injection Hrun as <- <- <-; (split; [exact Hsame|]);
      (split; [exact Hatt|]); (split; [exact Htick|]); [done|].
    intros _. exists ovsdb. split; [done|].
    apply elem_of_cons. right. apply elem_of_app. right. left.
Qed.

Lemma reconnectLoop_invariant `{Package} ticks retry c :
  ∃ s c' tr,
    reconnectLoop ticks retry c = Returned s c' tr ∧
    sameSettings c c' ∧
    connectAttempts tr = ticksConsumed tr ∧
    (ticksConsumed tr ≤ length ticks)%nat ∧
    (∀ r, s = Waiting r → ticksConsumed tr = length ticks) ∧
    (s = Stopped →
       ∃ h, client c' = Some h ∧ EvRegister h ∈ tr ∧
            last tr = Some EvTickerStop).
Proof.
  revert retry c. induction ticks as [|w rest IH]; intros retry c.
  - exists (Waiting retry), c, []. repeat split; done.
  - destruct (connect_outcome w c) as (r & c1 & tr1 & Hrun & Hsame & Hatt & Htick & Hlive).
    destruct r as [err|].
    + rewrite (reconnectLoop_failed w rest retry c err c1 tr1 Hrun).
      destruct (IH (wrapInt (retry + 1)) c1)
        as (s & c2 & tr2 & -> & Hsame2 & Hatt2 & Htick2 & Hwait & Hstop).
      do 3 eexists. split; [done|].
      pose proof (trace_app_facts tr1 ((EvLog <$> failureLines (addr c1) retry err) ++ tr2))
        as (_ & E2 & E3).
      pose proof (trace_app_facts (EvLog <$> failureLines (addr c1) retry err) tr2)
        as (_ & F2 & F3).
      pose proof (trace_log_facts (failureLines (addr c1) retry err))
        as (_ & G2 & G3).
      assert (connectAttempts
                (EvTick :: tr1 ++ (EvLog <$> failureLines (addr c1) retry err) ++ tr2)
              = S (connectAttempts tr2)) as Ha.
      { change (connectAttempts (EvTick :: ?l)) with (connectAttempts l).
        rewrite E2, F2, G2, Hatt. done. }
      assert (ticksConsumed
                (EvTick :: tr1 ++ (EvLog <$> failureLines (addr c1) retry err) ++ tr2)
              = S (ticksConsumed tr2)) as Ht.
      { change (ticksConsumed (EvTick :: ?l)) with (S (ticksConsumed l)).
        rewrite E3, F3, G3, Htick. done. }
      split; [by eapply sameSettings_trans|].
      split; [by rewrite Ha, Ht, Hatt2|].
      split; [rewrite Ht; simpl; lia|].
      split; [intros r Hs; rewrite Ht, (Hwait r Hs); done|].
      intros Hs. destruct (Hstop Hs) as (h & Hc & Hreg & Hlast).
      exists h. split; [done|]. split.
      * apply elem_of_cons. right. apply elem_of_app. right.
        apply elem_of_app. by right.
      * rewrite app_comm_cons, !app_assoc. by rewrite last_app, Hlast.
    + rewrite (reconnectLoop_succeeded w rest retry c c1 tr1 Hrun).
      destruct (Hlive eq_refl) as (h & Hc & Hreg).
      do 3 eexists. split; [done|].
      pose proof (trace_app_facts tr1 [EvLog (LogReconnected (addr c1) retry); EvTickerStop])
        as (_ & E2 & E3).
      split; [done|]. split.
      { change (connectAttempts (EvTick :: ?l)) with (connectAttempts l).
        change (ticksConsumed (EvTick :: ?l)) with (S (ticksConsumed l)).
        rewrite E2, E3, Hatt, Htick. done. }
      split.
      { change (ticksConsumed (EvTick :: ?l)) with (S (ticksConsumed l)).
        rewrite E3, Htick. unfold ticksConsumed. simpl. lia. }
      split; [done|]. intros _. exists h. split; [done|]. split.
      * apply elem_of_cons. right. apply elem_of_app. by left.
      * rewrite app_comm_cons.
        change [EvLog (LogReconnected (addr c1) retry); EvTickerStop]
          with ([EvLog (LogReconnected (addr c1) retry)] ++ [EvTickerStop]).
        by rewrite app_assoc, last_snoc.
Qed.

(** X11.  Ticks compose.  What the loop does on [l1 ++ l2] is what it
    does on [l1], followed, if it is still waiting, by what it does on
    [l2] from the retry count and the client it has reached; once it has
    stopped, later ticks change nothing. *)
Theorem reconnectLoop_app `{Package} (l1 l2 : list World) (retry : Z)
    (c c1 : ovndb) (s : loop_state) (tr1 : list event) :
  reconnectLoop l1 retry c = Returned s c1 tr1 →
  reconnectLoop (l1 ++ l2) retry c =
  match s with
  | Stopped => Returned Stopped c1 tr1
  | Waiting r1 =>
      match reconnectLoop l2 r1 c1 with
      | Returned s2 c2 tr2 => Returned s2 c2 (tr1 ++ tr2)
      | Panicked tr2 => Panicked (tr1 ++ tr2)
      end
  end.
Proof.
  revert retry c s c1 tr1. induction l1 as [|w rest IH]; intros retry c s c1 tr1 Hrun.
  - injection Hrun as <- <- <-. simpl. by destruct (reconnectLoop l2 retry c).
  - destruct (connect_outcome w c) as (r & c' & tr & Hcon & _).
    rewrite <- app_comm_cons. destruct r as [err|].
    + rewrite (reconnectLoop_failed w rest retry c err c' tr Hcon) in Hrun.
      rewrite (reconnectLoop_failed w (rest ++ l2) retry c err c' tr Hcon).
      destruct (reconnectLoop rest (wrapInt (retry + 1)) c') as [s' c2 tr2|tr2] eqn:Hrest;
        [|done].
      injection Hrun as <- <- <-. rewrite (IH _ _ _ _ _ Hrest).
      destruct s' as [|r1]; [done|].
      destruct (reconnectLoop l2 r1 c2); by rewrite app_comm_cons, !app_assoc.
    + rewrite (reconnectLoop_succeeded w rest retry c c' tr Hcon) in Hrun.
      rewrite (reconnectLoop_succeeded w (rest ++ l2) retry c c' tr Hcon).
      by injection Hrun as <- <- <-.
Qed.

(** X12.  When the reconnect loop has stopped, the client holds the live
    handle on which the notifier was registered, so [Close] returns nil
    and disconnects that handle; the last thing the loop did was to stop
    the ticker. *)
Theorem reconnect_stopped_live `{Package} (ticks : list World)
    (c c' : ovndb) (tr : list event) :
  reconnect ticks c = Returned Stopped c' tr →
  ∃ h, client c' = Some h ∧ EvRegister h ∈ tr ∧
       last tr = Some EvTickerStop ∧
       Close c' = Returned None c' [EvDisconnect h].
Proof.
  rewrite reconnect_unfold. intros Hrun.
  destruct (reconnectLoop_invariant ticks 0 c)
    as (s & c2 & tr2 & Heq & _ & _ & _ & _ & Hstop).
  rewrite Heq in Hrun. injection Hrun as -> <- <-.
  destruct (Hstop eq_refl) as (h & Hc & Hreg & Hlast).
  exists h. split; [done|]. split; [by do 2 right|]. split.
  - change (EvNewTicker 500 :: EvLog (LogDisconnected (addr c)) :: tr2)
      with ([EvNewTicker 500; EvLog (LogDisconnected (addr c))] ++ tr2).
    by rewrite last_app, Hlast.
  - cbv [Close mbind go_mbind go_bind clientDisconnect mret go_mret go_ret].
    by rewrite Hc.
Qed.

(** X13.  The reconnect loop never faults.  On any ticks and from any
    client it makes exactly one connect attempt per tick it consumes,
    consumes every tick as long as it has not stopped, and leaves the
    database name, the address, the callbacks, the TLS material and the
    reconnect flag of the client alone. *)
Theorem reconnect_never_faults `{Package} (ticks : list World) (c : ovndb) :
  ∃ s c' tr,
    reconnect ticks c = Returned s c' tr ∧
    sameSettings c c' ∧
    connectAttempts tr = ticksConsumed tr ∧
    (ticksConsumed tr ≤ length ticks)%nat ∧
    (∀ r, s = Waiting r → ticksConsumed tr = length ticks).
Proof.
  rewrite reconnect_unfold.
  destruct (reconnectLoop_invariant ticks 0 c)
    as (s & c' & tr & -> & Hsame & Hatt & Htick & Hwait & _).
  exists s, c', (EvNewTicker 500 :: EvLog (LogDisconnected (addr c)) :: tr).
  split; [done|]. split; [exact Hsame|]. split; [exact Hatt|].
  split; [exact Htick | exact Hwait].
Qed.

Lemma connect_missing_table `{Package} w c table columns :
  tableCols c !! table = Some columns →
  (∀ ovs, dial w (addr c) (tlsConfig c) = inr ovs →
          table ∉ computedTables ovs (db c)) →
  ∃ err c' tr, connect w c = Returned (Some err) c' tr ∧
               tableCols c' = tableCols c ∧ sameSettings c c'.
Proof.
  intros Hlook Hmissing.
  destruct (dial w (addr c) (tlsConfig c)) as [err|ovs] eqn:Hdial.
  - rewrite (connect_refused w c err Hdial). by do 3 eexists.
  - destruct (connect_dialed w c ovs Hdial)
      as (r & c1 & tr1 & Hmon & _ & _ & _ & _ & _ & _ & ->).
    assert (size (tableCols c) ≠ 0) as Hsize
      by (apply (map_size_ne_0_lookup_2 _ table); eauto).
    rewrite (MonitorTables_restricted w (set_client (Some ovs) c) ovs eq_refl Hsize)
      in Hmon.
    destruct (verifyLoop _ _ _) as [err|] eqn:Hverify.
    + injection Hmon as <- <- <-. by do 3 eexists.
    + apply verifyLoop_range in Hverify.
      destruct (Hverify table columns Hlook) as [Hin _].
      by destruct (Hmissing ovs eq_refl).
Qed.

(** X14.  A selected table that the remote schema lacks blocks the
    reconnect loop: as long as every dial that succeeds meets a schema
    without that table, every attempt fails, the loop keeps waiting with
    one attempt made per tick, and the selection stays as it is. *)
Theorem reconnect_blocked_by_missing_table `{Package} (ticks : list World)
    (c : ovndb) (table : string) (columns : list string) :
  tableCols c !! table = Some columns →
  (∀ w a tls ovs, w ∈ ticks → dial w a tls = inr ovs →
                  table ∉ computedTables ovs (db c)) →
  ∃ r c' tr,
    reconnect ticks c = Returned (Waiting r) c' tr ∧
    connectAttempts tr = length ticks ∧
    tableCols c' = tableCols c.
Proof.
  intros Hlook Hmissing. rewrite reconnect_unfold.
  assert (∀ retry, ∃ r c' tr,
            reconnectLoop ticks retry c = Returned (Waiting r) c' tr ∧
            tableCols c' = tableCols c) as Hloop.
  { revert c Hlook Hmissing.
    induction ticks as [|w rest IH]; intros c Hlook Hmissing retry.
    - by exists retry, c, [].
    - destruct (connect_missing_table w c table columns Hlook)
        as (err & c1 & tr1 & Hrun & Hcols & Hsame).
      { intros ovs Hdial. eapply Hmissing; [left | exact Hdial]. }
      rewrite (reconnectLoop_failed w rest retry c err c1 tr1 Hrun).
      destruct (IH c1) with (retry := wrapInt (retry + 1))
        as (r & c2 & tr2 & -> & Hcols2).
      + by rewrite Hcols.
      + intros w' a tls ovs Hin Hdial. destruct Hsame as (-> & _).
        eapply Hmissing; [by right | exact Hdial].
      + do 3 eexists. split; [done|]. by rewrite Hcols2. }
  destruct (Hloop 0%Z) as (r & c' & tr & Hrun & Hcols).
  destruct (reconnectLoop_invariant ticks 0 c)
    as (s & c2 & tr2 & Heq & _ & Hatt & _ & Hwait & _).
  rewrite Hrun in Heq. injection Heq as <- <- <-. rewrite Hrun.
  do 3 eexists. split; [done|]. split; [|done].
  change (connectAttempts (EvNewTicker 500 :: EvLog ?l :: ?t))
    with (connectAttempts t).
  rewrite Hatt. by apply (Hwait r).
Qed.

(** ** The further properties on the scenarios *)

Import Drift.

Lemma scenario_unrestricted : size (tableCols (fresh ∅)) = 0.
Proof. apply map_size_empty. Defined.

Lemma drift_tables_shrunk : computedTables (H:=pkg) ovs2 DBNB = ["A"].
Proof. vm_compute. reflexivity. Defined.

Lemma not_in_scenario_tables_Z : "Z" ∉ computedTables (H:=pkg) ovs1 DBNB.
Proof.
  rewrite scenario_tables. intros Hin.
  repeat (apply elem_of_cons in Hin as [Hin|Hin]; [discriminate Hin|]).
  by apply elem_of_nil in Hin.
Defined.

Lemma not_in_shrunk_tables_B : "B" ∉ computedTables (H:=pkg) ovs2 DBNB.
Proof.
  rewrite drift_tables_shrunk. intros Hin.
  repeat (apply elem_of_cons in Hin as [Hin|Hin]; [discriminate Hin|]).
  by apply elem_of_nil in Hin.
Defined.

Lemma unknown_table_rejected_witness :
  ∃ t,
    MonitorTables (H:=pkg) up (fresh {[ "Z" := [] ]}) =
      Returned (inl (ErrTableNotSupported t DBNB)) (fresh {[ "Z" := [] ]}) [] ∧
    is_Some (tableCols (fresh {[ "Z" := [] ]}) !! t) ∧
    t ∉ computedTables (H:=pkg) ovs1 DBNB.
Proof.
  apply (unknown_table_rejected (H:=pkg) up (fresh {[ "Z" := [] ]}) ovs1 "Z" []).
  - reflexivity.
  - apply lookup_singleton_eq.
  - exact not_in_scenario_tables_Z.
  - intros t cols Hl. simpl in Hl.
    by apply lookup_singleton_Some in Hl as [_ <-].
Defined.

Lemma subscription_is_full_rows_witness :
  namesComputedTables (computedTables (H:=pkg) ovs1 DBNB) (tableCols (fresh ∅)).
Proof.
  exact (proj1 (subscription_is_full_rows (H:=pkg) up (fresh ∅) _ _ ovs1 DBNB _
                  scenario_default_run)).
Defined.

Lemma missing_database_schema_witness :
  filterTablesFromSchema (H:=pkg) (set_client (Some ovs0) (fresh ∅)) =
  Returned [] (set_client (Some ovs0) (fresh ∅)) [].
Proof.
  exact (proj1 (missing_database_schema (H:=pkg) blank
                  (set_client (Some ovs0) (fresh ∅)) ovs0 eq_refl eq_refl)).
Defined.

Lemma monitor_error_taxonomy_witness :
  ∃ h requests,
    [EvMonitor ovs1 DBNB (requestFor <$> defaultCols (H:=pkg) ovs1 DBNB)] =
      [EvMonitor h DBNB requests] ∧
    client (fresh ∅) = Some h ∧
    monitor deaf h DBNB requests = inl rejected.
Proof.
  assert (MonitorTables (H:=pkg) deaf (fresh ∅) =
          Returned (inl rejected)
                   (set_tableCols (defaultCols (H:=pkg) ovs1 DBNB) (fresh ∅))
                   [EvMonitor ovs1 DBNB (requestFor <$> defaultCols (H:=pkg) ovs1 DBNB)])
    as Hrun by by apply (MonitorTables_default (H:=pkg) deaf (fresh ∅) ovs1).
  destruct (monitor_error_taxonomy (H:=pkg) deaf (fresh ∅) _ rejected _ Hrun)
    as [(Hnil & _)|Hsent].
  - discriminate Hnil.
  - exact Hsent.
Defined.

(** First connect against A and B without restriction, reconnect against
    a schema that has lost B. *)
Lemma default_selection_sticks_witness :
  ∃ t,
    MonitorTables (H:=pkg) shrunk
      (set_client (Some ovs2)
         (set_tableCols (defaultCols (H:=pkg) ovs1 DBNB) (fresh ∅))) =
      Returned (inl (ErrTableNotSupported t DBNB))
        (set_client (Some ovs2)
           (set_tableCols (defaultCols (H:=pkg) ovs1 DBNB) (fresh ∅))) [] ∧
    t ∈ computedTables (H:=pkg) ovs1 DBNB ∧
    t ∉ computedTables (H:=pkg) ovs2 DBNB.
Proof.
  apply (default_selection_sticks (H:=pkg) up shrunk (fresh ∅)
           (set_tableCols (defaultCols (H:=pkg) ovs1 DBNB) (fresh ∅))
           (set_client (Some ovs2)
              (set_tableCols (defaultCols (H:=pkg) ovs1 DBNB) (fresh ∅)))
           ovs1 ovs2 _ _ "B"
           eq_refl scenario_unrestricted scenario_default_run
           eq_refl eq_refl eq_refl).
  - change ("B" ∈ computedTables (H:=pkg) ovs1 DBNB).
    rewrite scenario_tables. right. left.
  - exact not_in_shrunk_tables_B.
Defined.

(** First connect against A and B without restriction, reconnect against
    a schema that has gained C: C is not monitored. *)
Lemma resubscription_identical_witness :
  ∃ r2 c3 requests2,
    MonitorTables (H:=pkg) grown
      (set_client (Some ovs3)
         (set_tableCols (defaultCols (H:=pkg) ovs1 DBNB) (fresh ∅))) =
      Returned r2 c3 [EvMonitor ovs3 DBNB requests2] ∧
    requests2 = requestFor <$> defaultCols (H:=pkg) ovs1 DBNB ∧
    c3 = set_client (Some ovs3)
           (set_tableCols (defaultCols (H:=pkg) ovs1 DBNB) (fresh ∅)).
Proof.
  assert (∃ r2 c3 requests2,
            MonitorTables (H:=pkg) grown
              (set_client (Some ovs3)
                 (set_tableCols (defaultCols (H:=pkg) ovs1 DBNB) (fresh ∅))) =
            Returned r2 c3 [EvMonitor ovs3 DBNB requests2])
    as (r2 & c3 & requests2 & Hrun) by (vm_compute; eauto).
  exists r2, c3, requests2. split; [exact Hrun|].
  apply (resubscription_identical (H:=pkg) up grown (fresh ∅)
           (set_tableCols (defaultCols (H:=pkg) ovs1 DBNB) (fresh ∅))
           (set_client (Some ovs3)
              (set_tableCols (defaultCols (H:=pkg) ovs1 DBNB) (fresh ∅)))
           c3 _ r2 ovs1 ovs3 DBNB DBNB _ requests2 scenario_default_run eq_refl);
    [|exact Hrun].
  vm_compute. discriminate.
Defined.

Lemma connect_success_inversion_witness :
  ∃ c' tr,
    connect (H:=pkg) up (fresh ∅) = Returned None c' tr ∧
    ∃ ovsdb requests initial,
      dial up (addr (fresh ∅)) (tlsConfig (fresh ∅)) = inr ovsdb ∧
      monitor up ovsdb (db (fresh ∅)) requests = inr initial ∧
      tr = [EvConnect (addr (fresh ∅)) (tlsConfig (fresh ∅));
            EvMonitor ovsdb (db (fresh ∅)) requests; EvRegister ovsdb] ∧
      client c' = Some ovsdb ∧
      cache c' = populateCache (Package:=pkg) initial (cache (fresh ∅)) ∧
      dom requests = dom (tableCols c').
Proof.
  assert (∃ c' tr, connect (H:=pkg) up (fresh ∅) = Returned None c' tr)
    as (c' & tr & Hrun) by (vm_compute; eauto).
  exists c', tr. split; [exact Hrun|].
  exact (connect_success_inversion (H:=pkg) up (fresh ∅) c' tr Hrun).
Defined.

Lemma NewClient_column_restriction_witness :
  ∃ err,
    NewClient (H:=pkg) up (cfg DBNB {[ "A" := ["name"] ]}) =
      Created None (Some err)
        [EvConnect (Addr (cfg DBNB {[ "A" := ["name"] ]}))
                   (TLSConfig (cfg DBNB {[ "A" := ["name"] ]}));
         EvDisconnect ovs1] ∧
    configuration_error err = true.
Proof.
  apply (NewClient_column_restriction (H:=pkg) up (cfg DBNB {[ "A" := ["name"] ]})
           DBNB ovs1 "A" ["name"]).
  - reflexivity.
  - reflexivity.
  - apply lookup_singleton_eq.
  - discriminate.
Defined.

Lemma NewClient_monitors_computed_subset_witness :
  ∃ c requests,
    NewClient (H:=pkg) up (cfg DBNB ∅) =
      Created (Some c) None
        [EvConnect (Addr (cfg DBNB ∅)) (TLSConfig (cfg DBNB ∅));
         EvMonitor ovs1 DBNB requests; EvRegister ovs1] ∧
    client c = Some ovs1 ∧ db c = DBNB ∧
    cache c = populateCache (Package:=pkg) ∅ ∅ ∧
    (∀ table, tableCols c !! table = Some [] ↔
              table ∈ computedTables (H:=pkg) ovs1 DBNB) ∧
    (∀ table, table ∈ dom requests ↔ table ∈ computedTables (H:=pkg) ovs1 DBNB).
Proof.
  apply (NewClient_monitors_computed_subset (H:=pkg) up (cfg DBNB ∅) DBNB ovs1 ∅).
  - reflexivity.
  - apply map_size_empty.
  - reflexivity.
  - reflexivity.
Defined.

Lemma reconnectLoop_app_witness :
  ∃ c1 tr1,
    reconnectLoop (H:=pkg) [down] 0 (fresh ∅) = Returned (Waiting 1) c1 tr1 ∧
    reconnectLoop (H:=pkg) ([down] ++ [up]) 0 (fresh ∅) =
    match reconnectLoop (H:=pkg) [up] 1 c1 with
    | Returned s2 c2 tr2 => Returned s2 c2 (tr1 ++ tr2)
    | Panicked tr2 => Panicked (tr1 ++ tr2)
    end.
Proof.
  assert (∃ c1 tr1, reconnectLoop (H:=pkg) [down] 0 (fresh ∅) =
                    Returned (Waiting 1) c1 tr1)
    as (c1 & tr1 & Hrun) by (vm_compute; eauto).
  exists c1, tr1. split; [exact Hrun|].
  exact (reconnectLoop_app (H:=pkg) [down] [up] 0 (fresh ∅) c1 (Waiting 1) tr1 Hrun).
Defined.

Lemma reconnect_stopped_live_witness :
  ∃ c' tr,
    reconnect (H:=pkg) [down; up] (fresh ∅) = Returned Stopped c' tr ∧
    ∃ h, client c' = Some h ∧ EvRegister h ∈ tr ∧
         last tr = Some EvTickerStop ∧
         Close c' = Returned None c' [EvDisconnect h].
Proof.
  assert (∃ c' tr, reconnect (H:=pkg) [down; up] (fresh ∅) = Returned Stopped c' tr)
    as (c' & tr & Hrun) by (vm_compute; eauto).
  exists c', tr. split; [exact Hrun|].
  exact (reconnect_stopped_live (H:=pkg) [down; up] (fresh ∅) c' tr Hrun).
Defined.

(** The client selected B; the remote either refuses the dial or has
    lost B. *)
Lemma reconnect_blocked_by_missing_table_witness :
  ∃ r c' tr,
    reconnect (H:=pkg) [shrunk; down] (fresh {[ "B" := [] ]}) =
      Returned (Waiting r) c' tr ∧
    connectAttempts tr = length [shrunk; down] ∧
    tableCols c' = tableCols (fresh {[ "B" := [] ]}).
Proof.
  apply (reconnect_blocked_by_missing_table (H:=pkg) [shrunk; down]
           (fresh {[ "B" := [] ]}) "B" []).
  - apply lookup_singleton_eq.
  - intros w a tls ovs Hin Hdial.
    apply elem_of_cons in Hin as [->|Hin].
    + injection Hdial as <-. exact not_in_shrunk_tables_B.
    + apply elem_of_cons in Hin as [->|Hin]; [discriminate Hdial|].
      by apply elem_of_nil in Hin.
Defined.

(** C3, as stated, fails on two counts.  A first [MonitorTables] without
    restriction does not hand the client back as it got it: it stores
    the defaulted selection.  And a reconnect against a schema that has
    lost table B sends no subscription at all, let alone the first
    one. *)
Lemma monitor_tables_writes_selection :
  ¬ subscribesWithoutWriting (H:=pkg) up (fresh ∅) ∧
  ¬ resubscribesIdentically (H:=pkg) up shrunk (fresh ∅) ovs2.
Proof.
  split.
  - intros (r & h & requests & Hrun).
    rewrite scenario_default_run in Hrun.
    apply (f_equal (λ o, match o with
                         | Returned _ k _ => tableCols k !! "A"
                         | Panicked _ => None
                         end)) in Hrun.
    simpl in Hrun. rewrite lookup_empty in Hrun.
    assert (defaultCols (H:=pkg) ovs1 DBNB !! "A" = Some []) as Hdef.
    { apply defaultCols_lookup. split; [|done]. rewrite scenario_tables. left. }
    by rewrite Hdef in Hrun.
  - intros Hsame.
    destruct (Hsame _ _ _ _ scenario_default_run) as (r2 & c3 & Hrun).
    vm_compute in Hrun. discriminate Hrun.
Qed.
